(** * PythonAnalyser: line metrics and hierarchy assembly

    A shallow embedding of [python_analyser_plugin/python_analyser.py].

    Python values are rendered as follows.
    - A [str] is its sequence of Unicode code points, [list N].
    - An exception is a value of [exception]; a call that may raise returns
      a [result].
    - A [dict] whose order is irrelevant is a [gmap]; the metric catalog
      [all_metrics], whose order is observable through [.values()], is an
      association list.
    - The file system is a tree of [fsnode]s: what the [os] and [open]
      calls answer for a path and for the paths below it. *)

From Stdlib Require Import String Ascii.
From stdpp Require Import base numbers option list gmap sorting.

Set Warnings "-register-all,-clear-no-such-hyp".

(** ** Python strings *)

Abbreviation str := (list N).

(** A literal of the source, as code points. *)
Fixpoint py (s : string) : str :=
  match s with
  | EmptyString => []
  | String a s' => N_of_ascii a :: py s'
  end.

(** The newline character. *)
Definition nl : N := 10%N.
(** [','], the separator of the CSV parameters. *)
Definition comma : N := 44%N.
(** The two triple-quote markers, three double quotes and three single
    quotes. *)
Definition triple_double : str := [34%N; 34%N; 34%N].
Definition triple_single : str := [39%N; 39%N; 39%N].

(** [str.isspace] on one character (CPython's [Py_UNICODE_ISSPACE]):
    U+0009..U+000D, U+001C..U+0020, U+0085, U+00A0, U+1680,
    U+2000..U+200A, U+2028, U+2029, U+202F, U+205F, U+3000. *)
Definition isspace (c : N) : bool :=
  ((9 <=? c) && (c <=? 13) || (28 <=? c) && (c <=? 32)
   || (c =? 133) || (c =? 160) || (c =? 5760)
   || (8192 <=? c) && (c <=? 8202)
   || (c =? 8232) || (c =? 8233) || (c =? 8239) || (c =? 8287)
   || (c =? 12288))%N.

Fixpoint lstrip (s : str) : str :=
  match s with
  | [] => []
  | c :: s' => if isspace c then lstrip s' else s
  end.

Definition rstrip (s : str) : str := rev (lstrip (rev s)).

(** [s.strip()] *)
Definition strip (s : str) : str := rstrip (lstrip s).

(** [s.startswith(prefix)] *)
Fixpoint startswith (s prefix : str) {struct prefix} : bool :=
  match prefix, s with
  | [], _ => true
  | _ :: _, [] => false
  | p :: prefix', c :: s' => (c =? p)%N && startswith s' prefix'
  end.

(** [s.endswith(suffix)] *)
Definition endswith (s suffix : str) : bool :=
  startswith (rev s) (rev suffix).

(** [sub in s] *)
Fixpoint contains (sub s : str) : bool :=
  startswith s sub ||
  match s with
  | [] => false
  | _ :: s' => contains sub s'
  end.

(** [s.count(sub)]: occurrences of [sub] found left to right without
    overlap.  [skip] is the number of characters still covered by the
    occurrence found last. *)
Fixpoint count_from (skip : nat) (sub s : str) : nat :=
  match s with
  | [] => 0
  | _ :: s' =>
      match skip with
      | S k => count_from k sub s'
      | O => if startswith s sub
             then S (count_from (pred (length sub)) sub s')
             else count_from 0 sub s'
      end
  end.

Definition count (s sub : str) : nat :=
  match sub with
  | [] => S (length s)
  | _ :: _ => count_from 0 sub s
  end.

(** [s.split(sep)] for a one-character separator. *)
Fixpoint split (sep : N) (s : str) : list str :=
  match s with
  | [] => [[]]
  | c :: s' =>
      if (c =? sep)%N then [] :: split sep s'
      else match split sep s' with
           | seg :: segs => (c :: seg) :: segs
           | [] => [[c]]
           end
  end.

(** Truth value of a string: non-empty. *)
Definition truthy (s : str) : bool :=
  match s with [] => false | _ :: _ => true end.

(** Comparison of strings, [a <= b]: lexicographic on code points. *)
Fixpoint str_leb (a b : str) : bool :=
  match a, b with
  | [], _ => true
  | _ :: _, [] => false
  | x :: a', y :: b' => (x <? y)%N || (x =? y)%N && str_leb a' b'
  end.

Definition str_le : relation str := λ a b, str_leb a b = true.

Global Instance str_le_dec : RelDecision str_le.
Proof. intros a b. unfold str_le. apply _. Defined.

(** [sorted(names)] *)
Definition sorted (names : list str) : list str := merge_sort str_le names.

(** ** Exceptions *)

(** The two invalid-input rejections of [analyse]; both are a Python
    [ValueError], told apart by their message. *)
Inductive invalid_input : Type :=
| InputDirMissing (input_dir : str)
    (* "Input directory does not exist: {input_dir}" *)
| NoValidMetrics (requested_metric_ids : list str).
    (* "No valid metrics found in: {requested_metric_ids}" *)

Inductive exception : Type :=
| ValueError (why : invalid_input)
| SyntaxError
| TypeError
| PermissionError
| OSError
| RecursionError.

Inductive result (A : Type) : Type :=
| Ok (a : A)
| Raise (e : exception).
Arguments Ok {A} a.
Arguments Raise {A} e.

Global Instance result_ret : MRet result := λ A a, Ok a.
Global Instance result_bind : MBind result := λ A B f m,
  match m with
  | Ok a => f a
  | Raise e => Raise e
  end.

Definition raises {A} (r : result A) : bool :=
  match r with Ok _ => false | Raise _ => true end.

(** ** Syntax trees, as far as the analyser looks at them *)

Inductive node_class : Type :=
| FunctionDef
| AsyncFunctionDef
| OtherNode.

Inductive AST : Type :=
| Node (cls : node_class) (fields : list AST).

(** [ast.walk(node)]: the node and all its descendants, each once ("in no
    specified order"). *)
Fixpoint walk (node : AST) : list AST :=
  match node with
  | Node _ fields => node :: flat_map walk fields
  end.

(** [isinstance(child, (ast.FunctionDef, ast.AsyncFunctionDef))] *)
Definition is_function_node (child : AST) : bool :=
  match child with
  | Node FunctionDef _ | Node AsyncFunctionDef _ => true
  | Node OtherNode _ => false
  end.

(** [__count_functions_and_methods] *)
Definition count_functions_and_methods (node : AST) : nat :=
  fold_left (λ count child, if is_function_node child then count + 1 else count)
            (walk node) 0.

(** ** The schema types (records of the reporting front end) *)

Record MetricDef : Type := {
  metric_id : str;
  metric_name : str;
  metric_description : str;
  metric_type : str;
  metric_aggregate : str;
  metric_propagate : bool;
}.

(** The [type] field of a node is its constructor.  Metric values are the
    [float] of a line or definition count, which is exact; they are kept
    as the counts. *)
Inductive HierarchyNode : Type :=
| FolderNode (name : str) (children : list HierarchyNode)
| FileNode (name : str) (language : str) (lastModified : str)
           (metrics : gmap str nat) (uses usedBy : list str).

Record ProjectData : Type := {
  version : str;
  title : str;
  description : str;
  metrics_computed : list MetricDef;
  hierarchy : HierarchyNode;
}.

Definition node_name (node : HierarchyNode) : str :=
  match node with
  | FolderNode name _ => name
  | FileNode name _ _ _ _ _ => name
  end.

(** ** The file system *)

(** What the operating system answers for one regular file:
    [open(..., errors="ignore").read()], the ISO form of
    [os.path.getmtime], and [datetime.now().isoformat()] at the moment a
    failure of the file is handled. *)
Record file_io : Type := {
  read : result str;
  last_mod_time : result str;
  now : str;
}.

(** What is found at a path.  [entry item_name] of a directory is what is
    found at [os.path.join(path, item_name)]; [listdir] is the answer of
    [os.listdir(path)], in the order of enumeration. *)
Inductive fsnode : Type :=
| RegularFile (io : file_io)
| Directory (listdir : result (list str)) (entry : str → fsnode)
| Special
| Missing.

(** [os.path.exists], [os.path.isfile], [os.path.isdir] *)
Definition path_exists (node : fsnode) : bool :=
  match node with Missing => false | _ => true end.
Definition isfile (node : fsnode) : bool :=
  match node with RegularFile _ => true | _ => false end.
Definition isdir (node : fsnode) : bool :=
  match node with Directory _ _ => true | _ => false end.

(** [os.listdir] of a path that is no directory raises. *)
Definition os_listdir (node : fsnode) : result (list str) :=
  match node with
  | Directory listdir _ => listdir
  | _ => Raise OSError
  end.

(** [os.path.basename] and [os.path.join] (POSIX). *)
Definition slash : N := 47%N.

Definition basename (p : str) : str := default [] (last (split slash p)).

Definition join (a b : str) : str :=
  if startswith b [slash] then b
  else if negb (truthy a) || endswith a [slash] then a ++ b
  else a ++ [slash] ++ b.

(** ** The analyser *)

(** The state of the line loop of [__calculate_metrics]. *)
Record scan_state : Type := {
  in_multiline_string : bool;
  multiline_quote : option str;
  comment_lines_count : nat;
  code_lines_count : nat;
}.

Definition scan_start : scan_state :=
  {| in_multiline_string := false; multiline_quote := None;
     comment_lines_count := 0; code_lines_count := 0 |}.

(** The last four lines of the loop body, reached when no [continue] was
    taken. *)
Definition scan_plain (st : scan_state) (stripped : str) : scan_state :=
  if startswith stripped (py "#") then
    {| in_multiline_string := in_multiline_string st;
       multiline_quote := multiline_quote st;
       comment_lines_count := comment_lines_count st + 1;
       code_lines_count := code_lines_count st |}
  else if truthy stripped && negb (in_multiline_string st) then
    {| in_multiline_string := in_multiline_string st;
       multiline_quote := multiline_quote st;
       comment_lines_count := comment_lines_count st;
       code_lines_count := code_lines_count st + 1 |}
  else st.

(** One iteration of [for line in lines].  [multiline_quote in stripped]
    with [multiline_quote] being [None] is a [TypeError]. *)
Definition scan_line (st : scan_state) (line : str) : result scan_state :=
  let stripped := strip line in
  if negb (in_multiline_string st) then
    if startswith stripped triple_double || startswith stripped triple_single
    then
      let quote := take 3 stripped in
      if count stripped quote =? 1 then
        Ok {| in_multiline_string := true;
              multiline_quote := Some quote;
              comment_lines_count := comment_lines_count st + 1;
              code_lines_count := code_lines_count st |}
      else if 2 <=? count stripped quote then
        Ok {| in_multiline_string := in_multiline_string st;
              multiline_quote := Some quote;
              comment_lines_count := comment_lines_count st + 1;
              code_lines_count := code_lines_count st |}
      else
        Ok (scan_plain
              {| in_multiline_string := in_multiline_string st;
                 multiline_quote := Some quote;
                 comment_lines_count := comment_lines_count st;
                 code_lines_count := code_lines_count st |} stripped)
    else Ok (scan_plain st stripped)
  else
    match multiline_quote st with
    | None => Raise TypeError
    | Some quote =>
        if contains quote stripped then
          Ok {| in_multiline_string := false;
                multiline_quote := None;
                comment_lines_count := comment_lines_count st + 1;
                code_lines_count := code_lines_count st |}
        else
          Ok {| in_multiline_string := in_multiline_string st;
                multiline_quote := multiline_quote st;
                comment_lines_count := comment_lines_count st + 1;
                code_lines_count := code_lines_count st |}
    end.

Fixpoint scan_lines (st : scan_state) (lines : list str) : result scan_state :=
  match lines with
  | [] => Ok st
  | line :: lines' => st' ← scan_line st line; scan_lines st' lines'
  end.

(** The fallback loop of [__calculate_metrics], run after a
    [SyntaxError]. *)
Definition simple_def_count (lines : list str) : nat :=
  fold_left
    (λ method_cnt line,
       let stripped := strip line in
       if startswith stripped (py "def ") && endswith stripped (py ":")
       then method_cnt + 1 else method_cnt)
    lines 0.

Definition zero_metrics : gmap str nat :=
  {[ py "loc" := 0; py "cloc" := 0; py "nom" := 0; py "tloc" := 0 ]}.

(** The fixed catalog, in the order of the [dict] literal. *)
Definition all_metrics : list (str * MetricDef) :=
  [ (py "loc",
     {| metric_id := py "loc"; metric_name := py "Lines of Code";
        metric_description := py "Number of non-empty, non-comment lines";
        metric_type := py "number"; metric_aggregate := py "sum";
        metric_propagate := true |});
    (py "cloc",
     {| metric_id := py "cloc"; metric_name := py "Comment Lines";
        metric_description := py "Number of comment lines";
        metric_type := py "number"; metric_aggregate := py "sum";
        metric_propagate := true |});
    (py "nom",
     {| metric_id := py "nom"; metric_name := py "Method Count";
        metric_description := py "Number of methods and functions";
        metric_type := py "number"; metric_aggregate := py "sum";
        metric_propagate := true |});
    (py "tloc",
     {| metric_id := py "tloc"; metric_name := py "Total Lines";
        metric_description := py "Total number of lines in file";
        metric_type := py "number"; metric_aggregate := py "sum";
        metric_propagate := true |}) ].

(** [d[key]] when [key in d], on an ordered [dict]. *)
Fixpoint dict_get {V} (d : list (str * V)) (key : str) : option V :=
  match d with
  | [] => None
  | (k, v) :: d' => if bool_decide (k = key) then Some v else dict_get d' key
  end.

(** [__parse_csv_param] *)
Definition parse_csv_param (param : str) : list str :=
  if negb (truthy param) || negb (truthy (strip param)) then []
  else strip <$> List.filter (λ item, truthy (strip item)) (split comma param).

(** [__should_exclude_directory] *)
Definition should_exclude_directory
    (dir_name : str) (exclude_dirs_list : list str) : bool :=
  match exclude_dirs_list with
  | [] => false
  | _ :: _ => bool_decide (dir_name ∈ exclude_dirs_list)
  end.

Section analyser.

(** The library calls the analyser relies on: [fnmatch.fnmatch],
    [ast.parse] (which raises [SyntaxError] on malformed source and may
    raise other exceptions), and [os.path.abspath] (which depends on the
    working directory). *)
Variable fnmatch : str → str → bool.
Variable ast_parse : str → result AST.
Variable abspath : str → str.

(** [__should_exclude_file] *)
Definition should_exclude_file
    (file_path : str) (exclude_files_list : list str) : bool :=
  match exclude_files_list with
  | [] => false
  | _ :: _ =>
      let file_name := basename file_path in
      existsb (λ pattern, fnmatch file_name pattern || fnmatch file_path pattern)
              exclude_files_list
  end.

(** [__calculate_metrics] *)
Definition calculate_metrics (content : str) : result (gmap str nat) :=
  let lines := split nl content in
  let total_lines := length lines in
  st ← scan_lines scan_start lines;
  method_cnt ←
    match ast_parse content with
    | Ok tree => Ok (count_functions_and_methods tree)
    | Raise SyntaxError => Ok (simple_def_count lines)
    | Raise e => Raise e
    end;
  Ok ({[ py "loc" := code_lines_count st;
         py "cloc" := comment_lines_count st;
         py "nom" := method_cnt;
         py "tloc" := total_lines ]} : gmap str nat).

(** [__analyse_file].  The file at [file_path] is given by what the
    operating system answers for it. *)
Definition analyse_file (io : file_io) (file_name : str) : HierarchyNode :=
  let attempt :=
    content ← read io;
    last_mod_time ← last_mod_time io;
    metrics_data ← calculate_metrics content;
    Ok (FileNode file_name (py "python") last_mod_time metrics_data [] [])
  in
  match attempt with
  | Ok node => node
  | Raise _ =>
      FileNode file_name (py "python") (now io) zero_metrics [] []
  end.

(** [__build_hierarchy].  [node] is what is found at [current_path].
    Nothing inside the loop raises: the tests on paths answer [False]
    instead, and the two callees catch what they meet; so the handlers
    only ever see a failure of [os.listdir], before the first child. *)
Fixpoint build_hierarchy
    (current_path root_path : str) (exclude_dirs exclude_files : list str)
    (node : fsnode) : HierarchyNode :=
  let rel_name := basename current_path in
  match node with
  | RegularFile io => analyse_file io rel_name
  | Directory (Ok names) entry =>
      FolderNode rel_name
        (fold_left
           (λ children item_name,
              let item_path := join current_path item_name in
              if startswith item_name (py ".") then children
              else
                match entry item_name with
                | Directory _ _ =>
                    if should_exclude_directory item_name exclude_dirs
                    then children
                    else
                      match build_hierarchy item_path root_path
                              exclude_dirs exclude_files (entry item_name)
                      with
                      | FolderNode _ (_ :: _) as child_node =>
                          children ++ [child_node]
                      | _ => children
                      end
                | RegularFile _ =>
                    if should_exclude_file item_path exclude_files
                    then children
                    else if endswith item_name (py ".py") then
                      children ++
                        [build_hierarchy item_path root_path
                           exclude_dirs exclude_files (entry item_name)]
                    else children
                | _ => children
                end)
           (sorted names) [])
  | Directory (Raise _) _ | Special | Missing => FolderNode rel_name []
  end.

(** [analyse].  [fs] answers what is found at a path; [kwargs] holds the
    extra keyword arguments. *)
Definition analyse
    (fs : str → fsnode) (input_dir : str)
    (title description : option str) (kwargs : gmap str str)
    : result ProjectData :=
  if negb (path_exists (fs input_dir)) then
    Raise (ValueError (InputDirMissing input_dir))
  else
    let exclude_dirs_csv := default [] (kwargs !! py "exclude_directories") in
    let exclude_files_csv := default [] (kwargs !! py "exclude_filenames") in
    let requested_metrics_csv := default [] (kwargs !! py "metrics") in
    let exclude_dirs_list := parse_csv_param exclude_dirs_csv in
    let exclude_files_list := parse_csv_param exclude_files_csv in
    let requested_metric_ids := parse_csv_param requested_metrics_csv in
    metrics_to_compute ←
      match requested_metric_ids with
      | _ :: _ =>
          match omap (dict_get all_metrics) requested_metric_ids with
          | [] => Raise (ValueError (NoValidMetrics requested_metric_ids))
          | defs => Ok defs
          end
      | [] => Ok (all_metrics.*2)
      end;
    let hierarchy :=
      build_hierarchy input_dir input_dir exclude_dirs_list
        exclude_files_list (fs input_dir) in
    let project_title :=
      match title with
      | Some (c :: t) => c :: t
      | _ => basename (abspath input_dir)
      end in
    let project_description :=
      match description with
      | Some (c :: d) => c :: d
      | _ => py "Analysis of " ++ project_title
      end in
    Ok {| version := py "1.0";
          title := project_title;
          description := project_description;
          metrics_computed := metrics_to_compute;
          hierarchy := hierarchy |}.

End analyser.

(** * Notions used in the statements *)

(** The loop can only fail inside a block whose marker is unset, which
    never happens: the marker is set when a block is entered. *)
Definition marker_known (st : scan_state) : Prop :=
  in_multiline_string st = true → is_Some (multiline_quote st).

(** What one iteration does to the two counters. *)
Inductive line_verdict : Type := CodeLine | CommentLine | UncountedLine.

Global Instance line_verdict_eq_dec : EqDecision line_verdict.
Proof. solve_decision. Defined.

Definition verdict (st st' : scan_state) : option line_verdict :=
  if bool_decide (comment_lines_count st' = comment_lines_count st
                  ∧ code_lines_count st' = code_lines_count st)
  then Some UncountedLine
  else if bool_decide (comment_lines_count st' = S (comment_lines_count st)
                       ∧ code_lines_count st' = code_lines_count st)
  then Some CommentLine
  else if bool_decide (comment_lines_count st' = comment_lines_count st
                       ∧ code_lines_count st' = S (code_lines_count st))
  then Some CodeLine
  else None.

(** The lines the loop passes over without counting them. *)
Fixpoint uncounted_lines (st : scan_state) (lines : list str) : nat :=
  match lines with
  | [] => 0
  | line :: lines' =>
      match scan_line st line with
      | Ok st' =>
          (if bool_decide (verdict st st' = Some UncountedLine) then 1 else 0)
          + uncounted_lines st' lines'
      | Raise _ => 0
      end
  end.

(** A simple definition line, in the words of the specification: the
    trimmed line starts with ["def "] and ends with [":"]. *)
Definition is_simple_def (line : str) : bool :=
  startswith (strip line) (py "def ") && endswith (strip line) (py ":").

(** A stand-in for [ast.parse] that knows the tree of one text and
    rejects every other text. *)
Definition parser_knowing (text : str) (tree : AST) : str → result AST :=
  λ content, if bool_decide (content = text) then Ok tree else Raise SyntaxError.

(** ["def g(a,\n  b):\n  async def h():\ndef k(:"]: a signature on two
    lines, an asynchronous definition and one malformed definition that
    the fallback counts. *)
Definition broken_text : str :=
  py "def g(a," ++ [nl] ++ py "  b):" ++ [nl] ++ py "  async def h():"
  ++ [nl] ++ py "def k(:".

(** ["def f():\n    pass\n"] and its syntax tree: a module holding one
    function definition, which holds its (empty) arguments and a [pass]. *)
Definition def_f_text : str :=
  py "def f():" ++ [nl] ++ py "    pass" ++ [nl].

Definition def_f_tree : AST :=
  Node OtherNode [Node FunctionDef [Node OtherNode []; Node OtherNode []]].

(** The metrics mappings of the [FileNode]s of a hierarchy. *)
Fixpoint file_metrics (node : HierarchyNode) : list (gmap str nat) :=
  match node with
  | FolderNode _ children => flat_map file_metrics children
  | FileNode _ _ _ metrics _ _ => [metrics]
  end.

Definition is_empty_folder (node : HierarchyNode) : bool :=
  match node with
  | FolderNode _ [] => true
  | _ => false
  end.

Definition is_file_node (node : HierarchyNode) : bool :=
  match node with
  | FileNode _ _ _ _ _ _ => true
  | FolderNode _ _ => false
  end.

Section loop_items.

Variable fnmatch : str → str → bool.
Variable ast_parse : str → result AST.
Variables (root_path : str) (exclude_dirs exclude_files : list str).

Local Abbreviation build current_path node :=
  (build_hierarchy fnmatch ast_parse current_path root_path
     exclude_dirs exclude_files node).

(** What the iteration for [item_name] appends to [children]. *)
Definition item_nodes
    (current_path : str) (entry : str → fsnode) (item_name : str)
    : list HierarchyNode :=
  let item_path := join current_path item_name in
  if startswith item_name (py ".") then []
  else
    match entry item_name with
    | Directory _ _ =>
        if should_exclude_directory item_name exclude_dirs then []
        else if is_empty_folder (build item_path (entry item_name))
                || is_file_node (build item_path (entry item_name))
        then []
        else [build item_path (entry item_name)]
    | RegularFile _ =>
        if should_exclude_file fnmatch item_path exclude_files then []
        else if endswith item_name (py ".py")
        then [build item_path (entry item_name)]
        else []
    | _ => []
    end.

End loop_items.

(** The metric ids a call asks for. *)
Definition requested_ids (kwargs : gmap str str) : list str :=
  parse_csv_param (default [] (kwargs !! py "metrics")).

(** The failures of a file that reach the handler of [__analyse_file]:
    the read raises, or reading the time of modification raises, or
    [ast.parse] raises anything but [SyntaxError]. *)
Definition fails_to_analyse (ast_parse : str → result AST) (io : file_io)
    : Prop :=
  match read io with
  | Raise _ => True
  | Ok content =>
      match last_mod_time io with
      | Raise _ => True
      | Ok _ =>
          match ast_parse content with
          | Ok _ => False
          | Raise e => e ≠ SyntaxError
          end
      end
  end.

(** The children of a folder; a file has none. *)
Definition node_children (node : HierarchyNode) : list HierarchyNode :=
  match node with
  | FolderNode _ children => children
  | FileNode _ _ _ _ _ _ => []
  end.

(** Language tag and cross-reference lists of the [FileNode]s of a
    hierarchy. *)
Fixpoint file_fields (node : HierarchyNode) : list (str * list str * list str) :=
  match node with
  | FolderNode _ children => flat_map file_fields children
  | FileNode _ language _ _ uses usedBy => [(language, uses, usedBy)]
  end.

(** The verdict a line gets, read off its trimmed form: inside a block
    every line is a comment; outside, a blank line is not counted, a line
    that starts with ["#"] or with a triple-quote marker is a comment, and
    any other line is code. *)
Definition expected_verdict (st : scan_state) (line : str) : line_verdict :=
  if in_multiline_string st then CommentLine
  else if negb (truthy (strip line)) then UncountedLine
  else if startswith (strip line) (py "#")
          || startswith (strip line) triple_double
          || startswith (strip line) triple_single
  then CommentLine
  else CodeLine.

(** ["x = 1  # note"], code followed by a comment. *)
Definition code_with_trailing_comment : str := py "x = 1  # note".

(** ** A sample project

    [/proj] holds a package with one module, a module of its own, a file
    with a syntax error, a file that cannot be read, a cache directory
    without Python files, a hidden directory and a text file. *)

(** Stand-ins for the library calls: [fnmatch] on patterns without
    wildcards, the parser that knows [def_f_text], and [abspath] on paths
    that are absolute already. *)
Definition literal_fnmatch : str → str → bool :=
  λ name pattern, bool_decide (name = pattern).

Definition sample_parser : str → result AST :=
  parser_knowing def_f_text def_f_tree.

Definition readable (text : str) : file_io :=
  {| read := Ok text;
     last_mod_time := Ok (py "2024-05-01T10:00:00");
     now := py "2024-06-01T12:00:00" |}.

Definition unreadable : file_io :=
  {| read := Raise PermissionError;
     last_mod_time := Ok (py "2024-05-01T10:00:00");
     now := py "2024-06-01T12:00:00" |}.

Definition sample_entries : list str :=
  [py "pkg"; py "main.py"; py "cache"; py ".git"; py "README.md";
   py "broken.py"; py "locked.py"].

Definition sample_entry (item_name : str) : fsnode :=
  if bool_decide (item_name = py "pkg") then
    Directory (Ok [py "util.py"]) (λ _, RegularFile (readable def_f_text))
  else if bool_decide (item_name = py "cache") then
    Directory (Ok [py "data.bin"]) (λ _, RegularFile (readable []))
  else if bool_decide (item_name = py ".git") then
    Directory (Ok [py "hook.py"]) (λ _, RegularFile (readable def_f_text))
  else if bool_decide (item_name = py "broken.py") then
    RegularFile (readable broken_text)
  else if bool_decide (item_name = py "locked.py") then
    RegularFile unreadable
  else RegularFile (readable def_f_text).

Definition sample_project : fsnode :=
  Directory (Ok sample_entries) sample_entry.

Definition sample_fs (path : str) : fsnode :=
  if bool_decide (path = py "/proj") then sample_project
  else if bool_decide (path = py "/proj/main.py") then
    RegularFile (readable def_f_text)
  else Missing.

Definition sample_run (input_dir : str) (kwargs : gmap str str)
    : result ProjectData :=
  analyse literal_fnmatch sample_parser (λ path, path) sample_fs input_dir
    None None kwargs.

(** Closed goals over the sample are settled by evaluation. *)
Ltac evaluate := vm_compute; reflexivity.
Ltac decide_it := apply (bool_decide_unpack _); vm_compute; exact I.

(** * Properties *)

(** ** Strings *)

Lemma split_nonempty sep s : split sep s ≠ [].
Proof.
  destruct s as [|c s]; simpl; [done|].
  destruct (c =? sep)%N; [done|]. by destruct (split sep s).
Qed.

Lemma split_app_sep sep a b :
  split sep (a ++ sep :: b) = split sep a ++ split sep b.
Proof.
  induction a as [|c a IH]; simpl.
  - by rewrite N.eqb_refl.
  - destruct (c =? sep)%N; [by rewrite IH|].
    rewrite IH. pose proof (split_nonempty sep a).
    by destruct (split sep a).
Qed.

Lemma split_no_sep sep s : sep ∉ s → split sep s = [s].
Proof.
  induction s as [|c s IH]; intros Hs; simpl; [done|].
  apply not_elem_of_cons in Hs as [Hc Hs].
  destruct (N.eqb_spec c sep); [congruence|]. by rewrite IH.
Qed.

Lemma split_length sep s :
  length (split sep s) = S (length (filter (λ c, c = sep) s)).
Proof.
  induction s as [|c s IH]; simpl; [done|].
  destruct (N.eqb_spec c sep) as [->|Hne].
  - rewrite filter_cons_True by done. simpl. by rewrite IH.
  - rewrite filter_cons_False by done.
    pose proof (split_nonempty sep s). by destruct (split sep s).
Qed.

Lemma startswith_app s t : startswith (s ++ t) s = true.
Proof. induction s as [|c s IH]; simpl; [done|]. by rewrite N.eqb_refl. Qed.

Lemma startswith_take s prefix :
  startswith s prefix = true → take (length prefix) s = prefix.
Proof.
  revert s. induction prefix as [|p prefix IH]; intros [|c s]; simpl; try done.
  intros [->%N.eqb_eq H]%andb_true_iff. by rewrite IH.
Qed.

(** A string counts at least one occurrence of its own first three
    characters when it starts with a triple-quote marker. *)
Lemma count_own_marker stripped :
  startswith stripped triple_double || startswith stripped triple_single = true →
  1 ≤ count stripped (take 3 stripped).
Proof.
  intros H.
  assert (∃ q, length q = 3 ∧ take 3 stripped = q ∧ startswith stripped q = true)
    as (q & Hlen & -> & Hq).
  { apply orb_true_iff in H as [H|H];
      [exists triple_double | exists triple_single];
      (split; [done|]); split; try done; by apply (startswith_take _ _ H). }
  destruct q as [|q0 q]; [done|]. unfold count.
  destruct stripped as [|c s]; [done|].
  cbn [count_from]. rewrite Hq. lia.
Qed.

(** ** The line loop *)

Lemma scan_line_verdict st line st' :
  scan_line st line = Ok st' → is_Some (verdict st st').
Proof.
  intros H. unfold scan_line, scan_plain in H.
  repeat case_match; simplify_eq; unfold verdict; simpl;
    repeat case_bool_decide; try done; lia.
Qed.

Lemma scan_plain_marker_known st stripped :
  marker_known st → marker_known (scan_plain st stripped).
Proof. unfold scan_plain, marker_known. by repeat case_match. Qed.

Lemma scan_line_marker_known st line :
  marker_known st →
  ∃ st', scan_line st line = Ok st' ∧ marker_known st'.
Proof.
  intros Hst. unfold scan_line.
  destruct (in_multiline_string st) eqn:Hin; simpl.
  - destruct (Hst Hin) as [quote ->].
    case_match; eexists; (split; [done|]); unfold marker_known; simpl; eauto.
    congruence.
  - repeat case_match; eexists; (split; [done|]);
      try apply scan_plain_marker_known; unfold marker_known; simpl; eauto;
      congruence.
Qed.

Lemma scan_lines_total st lines :
  marker_known st →
  ∃ st', scan_lines st lines = Ok st' ∧ marker_known st' ∧
    code_lines_count st' + comment_lines_count st' + uncounted_lines st lines
    = code_lines_count st + comment_lines_count st + length lines.
Proof.
  revert st. induction lines as [|line lines IH]; intros st Hst; simpl.
  - exists st. split_and!; [done..|lia].
  - destruct (scan_line_marker_known st line Hst) as (st1 & Hstep & Hst1).
    pose proof (scan_line_verdict st line st1 Hstep) as Hv.
    rewrite Hstep. cbn.
    destruct (IH st1 Hst1) as (st' & Hrun & Hst' & Hsum).
    exists st'. split_and!; [done..|].
    destruct Hv as [v Hv]. revert Hv. unfold verdict.
    repeat case_bool_decide; intros; simplify_eq; simpl; lia.
Qed.

Lemma scan_start_marker_known : marker_known scan_start.
Proof. by intros ?. Qed.

(** Outside a block, the uncounted lines are the blank ones; inside a
    block every line is counted. *)
Lemma uncounted_iff_blank st line st' :
  scan_line st line = Ok st' →
  verdict st st' = Some UncountedLine ↔
  in_multiline_string st = false ∧ strip line = [].
Proof.
  intros H. unfold scan_line in H.
  destruct (in_multiline_string st) eqn:Hin; cbn [negb] in H.
  - split; [|by intros [? _]].
    destruct (multiline_quote st); [|done].
    unfold verdict. case_match; simplify_eq; simpl;
      repeat case_bool_decide; try done; lia.
  - destruct (startswith (strip line) triple_double
              || startswith (strip line) triple_single) eqn:Hq.
    + pose proof (count_own_marker _ Hq) as Hc.
      assert (strip line ≠ []) as Hne by (by intros E; rewrite E in Hq).
      split; [|by intros [_ ?]].
      destruct (count (strip line) (take 3 (strip line)) =? 1) eqn:H1;
        [|destruct (2 <=? count (strip line) (take 3 (strip line))) eqn:H2].
      * simplify_eq. unfold verdict; simpl.
        repeat case_bool_decide; try done; lia.
      * simplify_eq. unfold verdict; simpl.
        repeat case_bool_decide; try done; lia.
      * apply Nat.eqb_neq in H1. apply Nat.leb_gt in H2. lia.
    + simplify_eq. unfold scan_plain, verdict. rewrite Hin.
      destruct (strip line) as [|c s]; simpl.
      * repeat case_bool_decide; try done; lia.
      * split; [|by intros [_ ?]].
        repeat case_match; simpl; repeat case_bool_decide; simpl in *; try done; lia.
Qed.

(** ** The metrics of one text *)

(** The dictionary literal returned by [__calculate_metrics]. *)
Lemma metrics_literal (loc cloc nom tloc : nat) :
  let metrics : gmap str nat :=
    {[ py "loc" := loc; py "cloc" := cloc; py "nom" := nom; py "tloc" := tloc ]}
  in
  metrics !! py "loc" = Some loc ∧ metrics !! py "cloc" = Some cloc ∧
  metrics !! py "nom" = Some nom ∧ metrics !! py "tloc" = Some tloc ∧
  dom metrics = list_to_set (all_metrics.*1).
Proof.
  cbv zeta. split_and!; by vm_compute.
Qed.

(** C4: the line loop returns for every text; every line makes exactly
    one of three verdicts (code, comment, uncounted), so the code lines,
    the comment lines and the uncounted lines add up to the total, and
    these are the [loc], [cloc] and [tloc] of the metrics; the total is
    the number of newline-delimited segments, one more than the number of
    newline characters, and a text extended by a final newline gains a
    final empty segment. *)
Theorem line_classifier_partitions_lines (content : str) :
  (∃ st, scan_lines scan_start (split nl content) = Ok st ∧
     code_lines_count st + comment_lines_count st
       + uncounted_lines scan_start (split nl content)
     = length (split nl content) ∧
     ∀ ast_parse metrics,
       calculate_metrics ast_parse content = Ok metrics →
       metrics !! py "loc" = Some (code_lines_count st) ∧
       metrics !! py "cloc" = Some (comment_lines_count st) ∧
       metrics !! py "tloc" = Some (length (split nl content))) ∧
  (∀ st line,
     match scan_line st line with
     | Ok st' => is_Some (verdict st st')
     | Raise _ => True
     end) ∧
  length (split nl content) = S (length (filter (λ c, c = nl) content)) ∧
  split nl (content ++ [nl]) = split nl content ++ [[]].
Proof.
  split_and!.
  - destruct (scan_lines_total scan_start (split nl content)
                scan_start_marker_known) as (st & Hrun & _ & Hsum).
    exists st. split; [done|]. split; [simpl in Hsum; lia|].
    intros ast_parse metrics. unfold calculate_metrics. rewrite Hrun. cbn.
    destruct (ast_parse content) as [tree|[]]; intros [= <-];
      split_and!; apply metrics_literal.
  - intros st line. destruct (scan_line st line) eqn:H; [|done].
    by eapply scan_line_verdict.
  - apply split_length.
  - by rewrite split_app_sep.
Qed.

Section metrics.

Variable ast_parse : str → result AST.

(** The line loop never fails, so the only exceptions that leave
    [__calculate_metrics] are those of [ast.parse] other than
    [SyntaxError]. *)
Lemma calculate_metrics_cases content :
  ∃ st, scan_lines scan_start (split nl content) = Ok st ∧
    calculate_metrics ast_parse content =
    match ast_parse content with
    | Ok tree =>
        Ok {[ py "loc" := code_lines_count st;
              py "cloc" := comment_lines_count st;
              py "nom" := count_functions_and_methods tree;
              py "tloc" := length (split nl content) ]}
    | Raise SyntaxError =>
        Ok {[ py "loc" := code_lines_count st;
              py "cloc" := comment_lines_count st;
              py "nom" := simple_def_count (split nl content);
              py "tloc" := length (split nl content) ]}
    | Raise e => Raise e
    end.
Proof.
  destruct (scan_lines_total scan_start (split nl content)
              scan_start_marker_known) as (st & Hrun & _).
  exists st. split; [done|]. unfold calculate_metrics. rewrite Hrun. cbn.
  by destruct (ast_parse content) as [tree|[]].
Qed.

Lemma calculate_metrics_dom content metrics :
  calculate_metrics ast_parse content = Ok metrics →
  dom metrics = list_to_set (all_metrics.*1).
Proof.
  destruct (calculate_metrics_cases content) as (st & _ & ->).
  destruct (ast_parse content) as [tree|[]]; intros [= <-];
    apply metrics_literal.
Qed.

End metrics.

Lemma simple_def_count_filter lines :
  simple_def_count lines = length (List.filter is_simple_def lines).
Proof.
  unfold simple_def_count.
  enough (∀ n, fold_left
            (λ method_cnt line,
               if startswith (strip line) (py "def ")
                  && endswith (strip line) (py ":")
               then method_cnt + 1 else method_cnt) lines n
          = n + length (List.filter is_simple_def lines)) as H by apply H.
  induction lines as [|line lines IH]; intros n; [simpl; lia|].
  cbn [fold_left List.filter]. rewrite IH.
  destruct (is_simple_def line) eqn:E; unfold is_simple_def in E; rewrite E;
    simpl; lia.
Qed.

(** C5: when [ast.parse] raises [SyntaxError] the metrics are returned
    all the same, and [nom] is the number of lines whose trimmed form
    starts with ["def "] and ends with [":"]; a line that starts with
    ["async"] or does not end with [":"] is not among them. *)
Theorem syntax_error_falls_back_to_simple_def_count
    (ast_parse : str → result AST) (content : str) :
  ast_parse content = Raise SyntaxError →
  (∃ metrics, calculate_metrics ast_parse content = Ok metrics ∧
     metrics !! py "nom"
     = Some (length (List.filter is_simple_def (split nl content)))) ∧
  (∀ line, startswith (strip line) (py "async") = true →
           is_simple_def line = false) ∧
  (∀ line, endswith (strip line) (py ":") = false →
           is_simple_def line = false).
Proof.
  intros Hparse. split_and!.
  - destruct (calculate_metrics_cases ast_parse content) as (st & _ & ->).
    rewrite Hparse. eexists. split; [done|].
    rewrite <- simple_def_count_filter. apply metrics_literal.
  - intros line H. unfold is_simple_def.
    destruct (strip line) as [|c s]; [done|].
    simpl in H |- *. apply andb_true_iff in H as [->%N.eqb_eq _]. done.
  - intros line H. unfold is_simple_def. rewrite H. apply andb_false_r.
Qed.

Lemma syntax_error_falls_back_witness :
  ∃ metrics,
    calculate_metrics (parser_knowing [] (Node OtherNode [])) broken_text
    = Ok metrics ∧
    metrics !! py "nom" = Some 1.
Proof.
  destruct (syntax_error_falls_back_to_simple_def_count
              (parser_knowing [] (Node OtherNode [])) broken_text)
    as [(metrics & Hrun & Hnom) _]; [reflexivity|].
  exists metrics. split; [exact Hrun|exact Hnom].
Defined.

(** C3, as the code has it: for ["def f():\n    pass\n"] the metrics are
    [loc = 2], [cloc = 0], [nom = 1] and [tloc = 3]; the text ends in a
    newline, so it has three segments. *)
Theorem def_f_metrics (ast_parse : str → result AST) :
  ast_parse def_f_text = Ok def_f_tree →
  calculate_metrics ast_parse def_f_text
  = Ok {[ py "loc" := 2; py "cloc" := 0; py "nom" := 1; py "tloc" := 3 ]}.
Proof.
  intros Hparse. unfold calculate_metrics. rewrite Hparse. by vm_compute.
Qed.

Lemma def_f_metrics_witness :
  calculate_metrics (parser_knowing def_f_text def_f_tree) def_f_text
  = Ok {[ py "loc" := 2; py "cloc" := 0; py "nom" := 1; py "tloc" := 3 ]}.
Proof. apply def_f_metrics. reflexivity. Defined.

(** C3 as stated fails: [tloc] is 3 for that text, not 2. *)
Lemma def_f_tloc_is_not_2 :
  ∃ metrics,
    calculate_metrics (parser_knowing def_f_text def_f_tree) def_f_text
    = Ok metrics ∧
    metrics !! py "loc" = Some 2 ∧ metrics !! py "cloc" = Some 0 ∧
    metrics !! py "nom" = Some 1 ∧
    metrics !! py "tloc" = Some 3 ∧ metrics !! py "tloc" ≠ Some 2.
Proof. eexists. split; [by vm_compute|]. by vm_compute. Qed.

(** ** The order of names *)

Global Instance str_le_total : Total str_le.
Proof.
  intros a. unfold str_le.
  induction a as [|x a IH]; intros [|y b]; simpl; auto.
  destruct (IH b) as [->| ->];
    destruct (N.ltb_spec x y), (N.ltb_spec y x), (N.eqb_spec x y),
             (N.eqb_spec y x); simpl; auto; lia.
Qed.

Global Instance str_le_trans : Transitive str_le.
Proof.
  intros a. unfold str_le.
  induction a as [|x a IH]; intros [|y b] [|z c]; simpl; try done.
  intros Hab Hbc.
  destruct (N.ltb_spec x y), (N.eqb_spec x y), (N.ltb_spec y z),
           (N.eqb_spec y z), (N.ltb_spec x z), (N.eqb_spec x z);
    simpl in *; try done; try lia.
  by eapply IH.
Qed.

Global Instance str_le_antisymm : AntiSymm (=) str_le.
Proof.
  intros a. unfold str_le.
  induction a as [|x a IH]; intros [|y b]; simpl; try done.
  intros Hab Hba.
  destruct (N.ltb_spec x y), (N.eqb_spec x y), (N.ltb_spec y x),
           (N.eqb_spec y x); simpl in *; try done; try lia.
  subst. f_equal. by apply IH.
Qed.

Lemma sorted_StronglySorted names : StronglySorted str_le (sorted names).
Proof. apply StronglySorted_merge_sort; apply _. Qed.

Lemma sorted_Permutation names : sorted names ≡ₚ names.
Proof. apply merge_sort_Permutation. Qed.

(** [sorted] forgets the order of enumeration. *)
Lemma sorted_permutation_eq names names' :
  names ≡ₚ names' → sorted names = sorted names'.
Proof.
  intros H. apply (StronglySorted_unique str_le);
    try apply sorted_StronglySorted.
  by rewrite !sorted_Permutation.
Qed.

Lemma StronglySorted_flat_map_keep {A} (R : relation A) (g : A → list A) l :
  (∀ x, x ∈ l → g x = [] ∨ g x = [x]) →
  StronglySorted R l → StronglySorted R (flat_map g l).
Proof.
  intros Hg Hl. induction Hl as [|x l Hl IH Hx]; simpl; [constructor|].
  assert (Forall (R x) (flat_map g l)) as Hx'.
  { apply Forall_forall. intros y (z & Hz & Hy)%list_elem_of_In%in_flat_map.
    apply list_elem_of_In in Hz, Hy.
    destruct (Hg z) as [E|E]; [by right|..]; rewrite E in Hy.
    - by apply elem_of_nil in Hy.
    - apply list_elem_of_singleton in Hy as ->.
      by eapply Forall_forall in Hx. }
  specialize (IH (λ y Hy, Hg y (list_elem_of_further _ _ _ Hy))).
  destruct (Hg x) as [-> | ->]; [by left|done|].
  simpl. by constructor.
Qed.

(** ** Paths *)

Lemma basename_join current_path item_name :
  slash ∉ item_name → basename (join current_path item_name) = item_name.
Proof.
  intros Hname. unfold basename, join.
  assert (last (split slash item_name) = Some item_name) as Hlast
    by (by rewrite split_no_sep).
  assert (∀ a, last (split slash (a ++ slash :: item_name)) = Some item_name)
    as Hsep.
  { intros a. rewrite split_app_sep, last_app, Hlast. done. }
  destruct (startswith item_name [slash]) eqn:Hs.
  { destruct item_name as [|c n]; [done|]. simpl in Hs.
    apply andb_true_iff in Hs as [->%N.eqb_eq _].
    exfalso. apply Hname. left. }
  destruct (negb (truthy current_path) || endswith current_path [slash])
    eqn:Hc; [|simpl; by rewrite Hsep].
  apply orb_true_iff in Hc as [Hc|Hc].
  - destruct current_path; [|done]. simpl. by rewrite Hlast.
  - unfold endswith in Hc. simpl in Hc.
    destruct (rev current_path) as [|c r] eqn:Hr; [done|].
    apply andb_true_iff in Hc as [->%N.eqb_eq _].
    rewrite <- (rev_involutive current_path), Hr. simpl.
    rewrite <- app_assoc. simpl. by rewrite Hsep.
Qed.

(** ** The hierarchy *)

Lemma fold_left_append {A B} (g : A → list B) (f : list B → A → list B) l acc :
  (∀ acc x, f acc x = acc ++ g x) →
  fold_left f l acc = acc ++ flat_map g l.
Proof.
  intros Hf. revert acc.
  induction l as [|x l IH]; intros acc; simpl; [by rewrite app_nil_r|].
  by rewrite IH, Hf, <- app_assoc.
Qed.

Section hierarchy.

Variable fnmatch : str → str → bool.
Variable ast_parse : str → result AST.

Variables (root_path : str) (exclude_dirs exclude_files : list str).

Local Abbreviation build current_path node :=
  (build_hierarchy fnmatch ast_parse current_path root_path
     exclude_dirs exclude_files node).

Local Abbreviation items current_path entry :=
  (item_nodes fnmatch ast_parse root_path exclude_dirs exclude_files
     current_path entry).

Lemma build_hierarchy_directory current_path names entry :
  build current_path (Directory (Ok names) entry)
  = FolderNode (basename current_path)
      (flat_map (items current_path entry) (sorted names)).
Proof.
  cbn [build_hierarchy]. f_equal.
  rewrite (fold_left_append (items current_path entry)); [done|].
  intros children item_name. unfold item_nodes.
  repeat case_match; rewrite ?app_nil_r; simplify_eq/=; try done.
Qed.

Lemma build_hierarchy_no_listing current_path node :
  isfile node = false → (∀ names, os_listdir node ≠ Ok names) →
  build current_path node = FolderNode (basename current_path) [].
Proof.
  destruct node as [io|[names|e] entry| |]; intros Hf Hl; try done.
  by destruct (Hl names).
Qed.

Lemma analyse_file_node io file_name :
  ∃ lastModified metrics,
    analyse_file ast_parse io file_name
    = FileNode file_name (py "python") lastModified metrics [] [] ∧
    dom metrics = list_to_set (all_metrics.*1).
Proof.
  unfold analyse_file.
  destruct (read io) as [content|e]; cbn;
    [destruct (last_mod_time io) as [t|e]; cbn;
     [destruct (calculate_metrics ast_parse content) as [m|e] eqn:Hm; cbn|]|];
    eexists _, _; (split; [done|]);
    try by vm_compute.
  by eapply calculate_metrics_dom.
Qed.

Lemma build_hierarchy_name current_path node :
  node_name (build current_path node) = basename current_path.
Proof.
  destruct node as [io|[names|e] entry| |]; try done.
  cbn [build_hierarchy].
  by destruct (analyse_file_node io (basename current_path))
    as (? & ? & -> & _).
Qed.

Lemma build_hierarchy_isfile current_path node :
  is_file_node (build current_path node) = isfile node.
Proof.
  destruct node as [io|[names|e] entry| |]; try done.
  cbn [build_hierarchy].
  by destruct (analyse_file_node io (basename current_path))
    as (? & ? & -> & _).
Qed.

(** Each iteration appends nothing or the node built for its item. *)
Lemma item_nodes_cases current_path entry item_name :
  items current_path entry item_name = [] ∨
  items current_path entry item_name
  = [build (join current_path item_name) (entry item_name)].
Proof. unfold item_nodes. repeat case_match; auto. Qed.

Lemma elem_of_item_nodes current_path entry item_name child :
  child ∈ items current_path entry item_name ↔
  child = build (join current_path item_name) (entry item_name) ∧
  startswith item_name (py ".") = false ∧
  (isdir (entry item_name) = true ∧
     should_exclude_directory item_name exclude_dirs = false ∧
     is_empty_folder child = false
   ∨ isfile (entry item_name) = true ∧
     should_exclude_file fnmatch (join current_path item_name) exclude_files
     = false ∧
     endswith item_name (py ".py") = true).
Proof.
  unfold item_nodes.
  pose proof (build_hierarchy_isfile (join current_path item_name)
                (entry item_name)) as Hfile.
  destruct (startswith item_name (py ".")).
  { rewrite elem_of_nil. naive_solver. }
  destruct (entry item_name) as [io|listdir entry'| |] eqn:Hentry;
    cbn [isdir isfile] in *.
  - destruct (should_exclude_file _ _ _), (endswith _ _);
      rewrite ?elem_of_nil, ?list_elem_of_singleton; naive_solver.
  - rewrite Hfile, orb_false_r.
    destruct (should_exclude_directory _ _);
      [rewrite elem_of_nil; naive_solver|].
    destruct (is_empty_folder _) eqn:Hempty;
      rewrite ?elem_of_nil, ?list_elem_of_singleton.
    * split; [done|]. intros [-> H].
      destruct H as [_ [[_ [_ H]]|[H _]]]; congruence.
    * split; [|by intros [-> _]]. intros ->. split_and!; try done. by left.
  - rewrite elem_of_nil. naive_solver.
  - rewrite elem_of_nil. naive_solver.
Qed.

(** Every [FileNode] of a hierarchy carries the four catalog keys. *)
Lemma build_hierarchy_file_metrics node : ∀ current_path,
  Forall (λ metrics, dom metrics = list_to_set (all_metrics.*1))
         (file_metrics (build current_path node)).
Proof.
  induction node as [io|[names|e] entry IH| |]; intros current_path;
    try by constructor.
  - cbn [build_hierarchy].
    destruct (analyse_file_node io (basename current_path))
      as (? & ? & -> & Hdom).
    by repeat constructor.
  - rewrite build_hierarchy_directory. cbn [file_metrics].
    apply Forall_flat_map, Forall_flat_map, Forall_forall.
    intros item_name _.
    destruct (item_nodes_cases current_path entry item_name) as [-> | ->];
      repeat constructor. apply IH.
Qed.

End hierarchy.

(** ** The orchestrator *)

Lemma dict_get_None {V} (d : list (str * V)) key :
  dict_get d key = None ↔ key ∉ d.*1.
Proof.
  induction d as [|[k v] d IH]; simpl.
  - split; [intros _; apply not_elem_of_nil|done].
  - rewrite not_elem_of_cons. case_bool_decide; naive_solver.
Qed.

Lemma omap_dict_get_nil {V} (d : list (str * V)) (keys : list str) :
  omap (dict_get d) keys = [] ↔ Forall (λ key, key ∉ d.*1) keys.
Proof.
  induction keys as [|key keys IH]; simpl; [by split|].
  rewrite Forall_cons, <- IH, <- dict_get_None.
  destruct (dict_get d key); naive_solver.
Qed.

Lemma all_metrics_ids key def :
  dict_get all_metrics key = Some def → metric_id def = key.
Proof.
  unfold all_metrics. simpl.
  repeat case_bool_decide; intros; simplify_eq; done.
Qed.

Lemma omap_all_metrics_ids (requested : list str) :
  metric_id <$> omap (dict_get all_metrics) requested
  = filter (λ key, key ∈ all_metrics.*1) requested.
Proof.
  induction requested as [|key requested IH]; [done|].
  cbn [omap list_omap].
  destruct (dict_get all_metrics key) as [def|] eqn:Hget.
  - rewrite filter_cons_True.
    + cbn [fmap list_fmap]. fold (@fmap list _ _ _ metric_id).
      by rewrite IH, (all_metrics_ids key def).
    + destruct (decide (key ∈ all_metrics.*1)) as [|Hn]; [done|].
      apply dict_get_None in Hn. congruence.
  - rewrite filter_cons_False; [done|]. by apply dict_get_None.
Qed.

Section orchestrator.

Variable fnmatch : str → str → bool.
Variable ast_parse : str → result AST.
Variable abspath : str → str.

Variables (fs : str → fsnode) (input_dir : str).
Variables (title description : option str) (kwargs : gmap str str).

Local Abbreviation run :=
  (analyse fnmatch ast_parse abspath fs input_dir title description kwargs).

Local Abbreviation root_node :=
  (build_hierarchy fnmatch ast_parse input_dir input_dir
     (parse_csv_param (default [] (kwargs !! py "exclude_directories")))
     (parse_csv_param (default [] (kwargs !! py "exclude_filenames")))
     (fs input_dir)).

(** The three outcomes of [analyse]. *)
Lemma analyse_cases :
  (path_exists (fs input_dir) = false ∧
     run = Raise (ValueError (InputDirMissing input_dir)))
  ∨ (path_exists (fs input_dir) = true ∧
     requested_ids kwargs ≠ [] ∧
     omap (dict_get all_metrics) (requested_ids kwargs) = [] ∧
     run = Raise (ValueError (NoValidMetrics (requested_ids kwargs))))
  ∨ (path_exists (fs input_dir) = true ∧
     (requested_ids kwargs = [] ∨
      omap (dict_get all_metrics) (requested_ids kwargs) ≠ []) ∧
     ∃ pd, run = Ok pd ∧
       hierarchy pd = root_node ∧
       metrics_computed pd =
         match requested_ids kwargs with
         | [] => all_metrics.*2
         | _ :: _ => omap (dict_get all_metrics) (requested_ids kwargs)
         end).
Proof.
  unfold analyse. fold (requested_ids kwargs).
  destruct (path_exists (fs input_dir)); cbn [negb]; [|by left].
  right.
  destruct (requested_ids kwargs) as [|key keys] eqn:Hreq.
  { right. split_and!; [done|by left|]. cbn. eexists. by split_and!. }
  destruct (omap (dict_get all_metrics) (key :: keys)) as [|def defs] eqn:Hvalid.
  { left. by split_and!. }
  right. split_and!; [done|by right|]. cbn. eexists. by split_and!.
Qed.

End orchestrator.

(** ** Claims about the hierarchy builder *)

Section builder_claims.

Variable fnmatch : str → str → bool.
Variable ast_parse : str → result AST.

Variables (root_path : str) (exclude_dirs exclude_files : list str).

Local Abbreviation build current_path node :=
  (build_hierarchy fnmatch ast_parse current_path root_path
     exclude_dirs exclude_files node).

Local Abbreviation items current_path entry :=
  (item_nodes fnmatch ast_parse root_path exclude_dirs exclude_files
     current_path entry).

(** A listed file that passes the filters has its node among the
    children, whatever the node holds. *)
Lemma listed_file_kept current_path names entry item_name io :
  item_name ∈ names →
  entry item_name = RegularFile io →
  startswith item_name (py ".") = false →
  should_exclude_file fnmatch (join current_path item_name) exclude_files
  = false →
  endswith item_name (py ".py") = true →
  ∃ children,
    build current_path (Directory (Ok names) entry)
    = FolderNode (basename current_path) children ∧
    analyse_file ast_parse io (basename (join current_path item_name))
    ∈ children.
Proof.
  intros Hin Hentry Hhidden Hexcl Hpy. eexists.
  split; [apply build_hierarchy_directory|].
  apply list_elem_of_In, in_flat_map. exists item_name.
  split; [apply list_elem_of_In; by rewrite sorted_Permutation|].
  apply list_elem_of_In, elem_of_item_nodes.
  rewrite Hentry. split_and!; [done..|]. right. by split_and!.
Qed.

(** C7: a directory always yields a [FolderNode], with no children when
    it lists nothing; none of its children is a folder without
    children, so a sub-directory whose own result has no children
    leaves no node; and every listed file that passes the filters has
    its node among the children. *)
Theorem empty_folders_pruned_files_kept
    (current_path : str) (listdir : result (list str))
    (entry : str → fsnode) :
  ∃ children,
    build current_path (Directory listdir entry)
    = FolderNode (basename current_path) children ∧
    (listdir = Ok [] → children = []) ∧
    (∀ child, child ∈ children → is_empty_folder child = false) ∧
    (∀ item_name,
       is_empty_folder
         (build (join current_path item_name) (entry item_name)) = true →
       build (join current_path item_name) (entry item_name) ∉ children) ∧
    (∀ names item_name io,
       listdir = Ok names → item_name ∈ names →
       entry item_name = RegularFile io →
       startswith item_name (py ".") = false →
       should_exclude_file fnmatch (join current_path item_name)
         exclude_files = false →
       endswith item_name (py ".py") = true →
       analyse_file ast_parse io (basename (join current_path item_name))
       ∈ children).
Proof.
  destruct listdir as [names|e].
  2:{ exists []. split_and!; try done.
      - intros child Hc. by apply elem_of_nil in Hc.
      - intros item_name _ Hc. by apply elem_of_nil in Hc. }
  exists (flat_map (items current_path entry) (sorted names)).
  assert (∀ child,
            child ∈ flat_map (items current_path entry) (sorted names) →
            is_empty_folder child = false) as Hpruned.
  { intros child (item_name & _ & Hc)%list_elem_of_In%in_flat_map.
    apply list_elem_of_In, elem_of_item_nodes in Hc
      as (-> & _ & [(_ & _ & Hne)|(Hfile & _)]); [done|].
    pose proof (build_hierarchy_isfile fnmatch ast_parse root_path
                  exclude_dirs exclude_files (join current_path item_name)
                  (entry item_name)) as Hb.
    rewrite Hfile in Hb. revert Hb.
    by destruct (build (join current_path item_name) (entry item_name)). }
  split_and!.
  - apply build_hierarchy_directory.
  - by intros [= ->].
  - done.
  - intros item_name Hempty Hc. apply Hpruned in Hc. congruence.
  - intros names' item_name io [= <-] Hin Hentry Hhidden Hexcl Hpy.
    destruct (listed_file_kept current_path names entry item_name io)
      as (children & Hb & Hc); try done.
    rewrite build_hierarchy_directory in Hb. by injection Hb as <-.
Qed.

(** C9: the children of a directory come in the lexicographic order of
    the entry names, and a different order of enumeration of the same
    entries gives the same node. *)
Theorem children_in_lexicographic_order
    (current_path : str) (names names' : list str) (entry : str → fsnode) :
  names ≡ₚ names' →
  Forall (λ item_name, slash ∉ item_name) names →
  ∃ children,
    build current_path (Directory (Ok names) entry)
    = FolderNode (basename current_path) children ∧
    StronglySorted str_le (node_name <$> children) ∧
    build current_path (Directory (Ok names') entry)
    = FolderNode (basename current_path) children.
Proof.
  intros Hperm Hnames.
  exists (flat_map (items current_path entry) (sorted names)).
  split_and!.
  - apply build_hierarchy_directory.
  - replace (node_name <$> flat_map (items current_path entry) (sorted names))
      with (flat_map (λ item_name,
                        node_name <$> items current_path entry item_name)
                     (sorted names)).
    2:{ induction (sorted names) as [|x l IH]; simpl; [done|].
        by rewrite fmap_app, IH. }
    apply StronglySorted_flat_map_keep; [|apply sorted_StronglySorted].
    intros item_name Hin. rewrite sorted_Permutation in Hin.
    destruct (item_nodes_cases fnmatch ast_parse root_path exclude_dirs
                exclude_files current_path entry item_name) as [-> | ->];
      [by left|right]. simpl.
    rewrite build_hierarchy_name, basename_join; [done|].
    by eapply Forall_forall in Hnames.
  - rewrite build_hierarchy_directory.
    by rewrite (sorted_permutation_eq names' names).
Qed.

(** C6, as the code has it: a file whose read or time of modification
    raises, or whose parse raises anything but [SyntaxError], gets a
    [FileNode] with the four metrics at zero and the current time; and
    when the file is listed and passes the filters, that node is among
    the children of its folder. *)
Theorem failed_file_degrades_to_zero_metrics (io : file_io) :
  fails_to_analyse ast_parse io →
  (∀ file_name,
     analyse_file ast_parse io file_name
     = FileNode file_name (py "python") (now io) zero_metrics [] []) ∧
  (zero_metrics !! py "loc" = Some 0 ∧ zero_metrics !! py "cloc" = Some 0 ∧
   zero_metrics !! py "nom" = Some 0 ∧ zero_metrics !! py "tloc" = Some 0) ∧
  (∀ current_path names entry item_name,
     item_name ∈ names →
     entry item_name = RegularFile io →
     startswith item_name (py ".") = false →
     should_exclude_file fnmatch (join current_path item_name) exclude_files
     = false →
     endswith item_name (py ".py") = true →
     ∃ children,
       build current_path (Directory (Ok names) entry)
       = FolderNode (basename current_path) children ∧
       FileNode (basename (join current_path item_name)) (py "python")
         (now io) zero_metrics [] [] ∈ children).
Proof.
  intros Hfail.
  assert (∀ file_name,
     analyse_file ast_parse io file_name
     = FileNode file_name (py "python") (now io) zero_metrics [] [])
    as Hzero.
  { intros file_name. unfold analyse_file, fails_to_analyse in *.
    destruct (read io) as [content|e]; cbn; [|done].
    destruct (last_mod_time io) as [t|e]; cbn; [|done].
    destruct (calculate_metrics_cases ast_parse content) as (st & _ & ->).
    by destruct (ast_parse content) as [tree|[]]. }
  split_and!; [done|by vm_compute..|].
  intros current_path names entry item_name Hin Hentry Hhidden Hexcl Hpy.
  rewrite <- Hzero. by apply listed_file_kept.
Qed.

End builder_claims.

(** ** Claims about the orchestrator *)

Section orchestrator_claims.

Variable fnmatch : str → str → bool.
Variable ast_parse : str → result AST.
Variable abspath : str → str.

Variables (fs : str → fsnode) (input_dir : str).
Variables (title description : option str) (kwargs : gmap str str).

Local Abbreviation run :=
  (analyse fnmatch ast_parse abspath fs input_dir title description kwargs).

Local Abbreviation cases :=
  (analyse_cases fnmatch ast_parse abspath fs input_dir title description
     kwargs).

(** C1, as the code has it: in every report, each [FileNode] carries
    exactly the four catalog keys, whatever was requested; the request
    only selects the metric definitions listed in the report, which are
    the requested ids found in the catalog, in the order of the request,
    or the whole catalog when nothing is requested. *)
Theorem file_nodes_carry_all_four_metrics (pd : ProjectData) :
  run = Ok pd →
  Forall (λ metrics,
            dom metrics
            = list_to_set [py "loc"; py "cloc"; py "nom"; py "tloc"])
         (file_metrics (hierarchy pd)) ∧
  metric_id <$> metrics_computed pd
  = match requested_ids kwargs with
    | [] => [py "loc"; py "cloc"; py "nom"; py "tloc"]
    | _ :: _ => filter (λ key, key ∈ all_metrics.*1) (requested_ids kwargs)
    end.
Proof.
  intros Hrun.
  destruct cases as [[_ H]|[(_ & _ & _ & H)|(_ & _ & pd' & H & Hh & Hm)]];
    try congruence.
  assert (pd' = pd) as -> by congruence.
  split.
  - rewrite Hh. apply build_hierarchy_file_metrics.
  - rewrite Hm. destruct (requested_ids kwargs); [done|].
    apply omap_all_metrics_ids.
Qed.

(** C2, as the code has it: on an existing path, the request
    ["loc,bogus"] is accepted, and the report lists the one metric
    [loc]. *)
Theorem one_recognised_metric_is_enough :
  path_exists (fs input_dir) = true →
  kwargs !! py "metrics" = Some (py "loc,bogus") →
  ∃ pd, run = Ok pd ∧ metric_id <$> metrics_computed pd = [py "loc"].
Proof.
  intros Hexists Hmetrics.
  assert (requested_ids kwargs = [py "loc"; py "bogus"]) as Hreq
    by (unfold requested_ids; rewrite Hmetrics; by vm_compute).
  destruct cases as [[? _]|[(_ & _ & H & _)|(_ & _ & pd & H & _ & Hm)]].
  - congruence.
  - rewrite Hreq in H. by vm_compute in H.
  - exists pd. split; [done|]. rewrite Hm, Hreq. by vm_compute.
Qed.

(** C8: on an existing path, [analyse] raises exactly when the request
    is not empty and none of its ids is in the catalog, and what it
    raises then is the no-valid-metrics error; that error is raised in
    no other case; an empty or absent request gives the four metric
    definitions in catalog order. *)
Theorem rejects_only_wholly_unrecognised_requests :
  path_exists (fs input_dir) = true →
  ((∃ e, run = Raise e) ↔
     requested_ids kwargs ≠ [] ∧
     Forall (λ key, key ∉ all_metrics.*1) (requested_ids kwargs)) ∧
  (∀ e, run = Raise e →
        e = ValueError (NoValidMetrics (requested_ids kwargs))) ∧
  (requested_ids kwargs = [] →
   ∃ pd, run = Ok pd ∧
     metrics_computed pd = all_metrics.*2 ∧
     metric_id <$> metrics_computed pd
     = [py "loc"; py "cloc"; py "nom"; py "tloc"]) ∧
  (kwargs !! py "metrics" = None → requested_ids kwargs = []) ∧
  (kwargs !! py "metrics" = Some [] → requested_ids kwargs = []).
Proof.
  intros Hexists.
  destruct cases as [[? _]|[(_ & Hne & Hnil & H)|(_ & Hok & pd & H & _ & Hm)]];
    [congruence|..]; rewrite H; split_and!.
  - split; [intros _|by eauto]. split; [done|].
    by apply omap_dict_get_nil.
  - by intros e [= <-].
  - done.
  - unfold requested_ids. by intros ->.
  - unfold requested_ids. by intros ->.
  - split; [by intros [e ?]|]. intros [Hne Hall].
    apply omap_dict_get_nil in Hall. by destruct Hok.
  - done.
  - intros Hreq. exists pd. rewrite Hm, Hreq. by split_and!.
  - unfold requested_ids. by intros ->.
  - unfold requested_ids. by intros ->.
Qed.

(** C10: the only check on the root path is that it exists.  The
    missing-directory error is raised exactly when nothing is found at
    the path; with a request that the catalog accepts, nothing else is
    raised either.  When the path is a regular file, every report has
    the [FileNode] of that file as its hierarchy, and a call that asks
    for no particular metrics gets such a report. *)
Theorem root_path_is_only_checked_for_existence :
  (run = Raise (ValueError (InputDirMissing input_dir)) ↔
     path_exists (fs input_dir) = false) ∧
  (requested_ids kwargs = [] ∨
   omap (dict_get all_metrics) (requested_ids kwargs) ≠ [] →
   ((∃ e, run = Raise e) ↔ path_exists (fs input_dir) = false)) ∧
  (∀ io, fs input_dir = RegularFile io →
     (∀ pd, run = Ok pd →
        hierarchy pd = analyse_file ast_parse io (basename input_dir) ∧
        is_file_node (hierarchy pd) = true) ∧
     (requested_ids kwargs = [] → ∃ pd, run = Ok pd)).
Proof.
  destruct cases
    as [[Hex H]|[(Hex & Hne & Hnil & H)|(Hex & Hok & pd & H & Hh & Hm)]];
    rewrite H; split_and!.
  - done.
  - intros _. split; [done|by eauto].
  - intros io Hio. rewrite Hio in Hex. done.
  - split; [done|congruence].
  - intros [?|?]; done.
  - intros io Hio. split; [done|]. intros Hreq. done.
  - split; [done|congruence].
  - intros _. split; [by intros [e ?]|congruence].
  - intros io Hio. split; [|by eauto].
    intros pd' [= <-]. rewrite Hh, Hio. cbn [build_hierarchy].
    split; [done|].
    by destruct (analyse_file_node ast_parse io (basename input_dir))
      as (? & ? & -> & _).
Qed.

End orchestrator_claims.

(** C1 as stated fails: with only [loc] requested, the file nodes of the
    sample still carry all four keys. *)
Lemma requested_subset_leaves_file_nodes_unfiltered :
  ∃ pd,
    sample_run (py "/proj") {[ py "metrics" := py "loc" ]} = Ok pd ∧
    metric_id <$> metrics_computed pd = [py "loc"] ∧
    ({[ py "loc" := 2; py "cloc" := 0; py "nom" := 1; py "tloc" := 3 ]}
       : gmap str nat) ∈ file_metrics (hierarchy pd) ∧
    Forall (λ metrics, dom metrics ≠ list_to_set [py "loc"])
           (file_metrics (hierarchy pd)).
Proof.
  eexists. split; [evaluate|]. split; [evaluate|]. split; decide_it.
Qed.

Lemma file_nodes_carry_all_four_metrics_witness :
  ∃ pd,
    sample_run (py "/proj") {[ py "metrics" := py "nom, loc" ]} = Ok pd ∧
    Forall (λ metrics,
              dom metrics
              = list_to_set [py "loc"; py "cloc"; py "nom"; py "tloc"])
           (file_metrics (hierarchy pd)) ∧
    metric_id <$> metrics_computed pd = [py "nom"; py "loc"].
Proof.
  eexists. split; [evaluate|].
  match goal with
  | |- context [hierarchy ?pd] =>
      destruct (file_nodes_carry_all_four_metrics literal_fnmatch
                  sample_parser (λ path, path) sample_fs (py "/proj") None
                  None {[ py "metrics" := py "nom, loc" ]} pd)
        as [Hall Hids]; [evaluate|]
  end.
  split; [exact Hall|]. rewrite Hids. evaluate.
Defined.

(** C2 as stated fails: ["loc,bogus"] on the existing sample directory
    raises nothing and yields a report. *)
Lemma loc_bogus_is_accepted :
  raises (sample_run (py "/proj") {[ py "metrics" := py "loc,bogus" ]})
  = false ∧
  ∃ pd,
    sample_run (py "/proj") {[ py "metrics" := py "loc,bogus" ]} = Ok pd ∧
    metric_id <$> metrics_computed pd = [py "loc"].
Proof. split; [evaluate|]. eexists. split; evaluate. Qed.

Lemma one_recognised_metric_is_enough_witness :
  ∃ pd,
    analyse literal_fnmatch sample_parser (λ path, path) sample_fs
      (py "/proj/main.py") (Some (py "Main")) None
      {[ py "metrics" := py "loc,bogus" ]} = Ok pd ∧
    metric_id <$> metrics_computed pd = [py "loc"].
Proof. apply one_recognised_metric_is_enough; reflexivity. Defined.

(** C6 as stated fails: the parse of [broken_text] raises, and the file
    keeps its line counts, the fallback count and its own time of
    modification. *)
Lemma syntax_error_file_keeps_its_metrics :
  sample_parser broken_text = Raise SyntaxError ∧
  analyse_file sample_parser (readable broken_text) (py "broken.py")
  = FileNode (py "broken.py") (py "python") (py "2024-05-01T10:00:00")
      {[ py "loc" := 4; py "cloc" := 0; py "nom" := 1; py "tloc" := 4 ]}
      [] [] ∧
  last_mod_time (readable broken_text) ≠ Ok (now (readable broken_text)).
Proof. split; [evaluate|]. split; [evaluate|]. discriminate. Qed.

Lemma failed_file_degrades_to_zero_metrics_witness :
  analyse_file sample_parser unreadable (py "locked.py")
  = FileNode (py "locked.py") (py "python") (py "2024-06-01T12:00:00")
      zero_metrics [] [] ∧
  ∃ children,
    build_hierarchy literal_fnmatch sample_parser (py "/proj") (py "/proj")
      [] [py "setup.py"] sample_project
    = FolderNode (py "proj") children ∧
    FileNode (py "locked.py") (py "python") (py "2024-06-01T12:00:00")
      zero_metrics [] [] ∈ children.
Proof.
  destruct (failed_file_degrades_to_zero_metrics literal_fnmatch sample_parser
              (py "/proj") [] [py "setup.py"] unreadable I)
    as (Hzero & _ & Hkept).
  split; [apply Hzero|].
  apply (Hkept (py "/proj") sample_entries sample_entry (py "locked.py"));
    [decide_it|reflexivity..].
Defined.

Lemma empty_folders_pruned_files_kept_witness :
  ∃ children,
    build_hierarchy literal_fnmatch sample_parser (py "/proj") (py "/proj")
      [] [] sample_project
    = FolderNode (py "proj") children ∧
    node_name <$> children
    = [py "broken.py"; py "locked.py"; py "main.py"; py "pkg"] ∧
    is_empty_folder
      (build_hierarchy literal_fnmatch sample_parser (py "/proj/cache")
         (py "/proj") [] [] (sample_entry (py "cache"))) = true.
Proof.
  destruct (empty_folders_pruned_files_kept literal_fnmatch sample_parser
              (py "/proj") [] [] (py "/proj") (Ok sample_entries) sample_entry)
    as (children & Hbuild & _).
  exists children. split; [exact Hbuild|].
  vm_compute in Hbuild. injection Hbuild as <-. split; evaluate.
Defined.

Lemma rejects_only_wholly_unrecognised_requests_witness :
  ∃ e, sample_run (py "/proj")
         {[ py "metrics" := py "invalid,nonexistent" ]} = Raise e.
Proof.
  apply (rejects_only_wholly_unrecognised_requests literal_fnmatch
           sample_parser (λ path, path) sample_fs (py "/proj") None None
           {[ py "metrics" := py "invalid,nonexistent" ]} eq_refl).
  split; [by vm_compute|decide_it].
Defined.

Lemma children_in_lexicographic_order_witness :
  ∃ children,
    build_hierarchy literal_fnmatch sample_parser (py "/proj") (py "/proj")
      [] [] (Directory (Ok sample_entries) sample_entry)
    = FolderNode (py "proj") children ∧
    StronglySorted str_le (node_name <$> children) ∧
    build_hierarchy literal_fnmatch sample_parser (py "/proj") (py "/proj")
      [] [] (Directory (Ok (reverse sample_entries)) sample_entry)
    = FolderNode (py "proj") children.
Proof.
  apply (children_in_lexicographic_order literal_fnmatch sample_parser
           (py "/proj") [] [] (py "/proj") sample_entries
           (reverse sample_entries) sample_entry); decide_it.
Defined.

Lemma root_path_is_only_checked_for_existence_witness :
  sample_run (py "/nowhere") ∅
  = Raise (ValueError (InputDirMissing (py "/nowhere"))) ∧
  ∃ pd, sample_run (py "/proj/main.py") ∅ = Ok pd ∧
        is_file_node (hierarchy pd) = true.
Proof.
  split.
  - apply (root_path_is_only_checked_for_existence literal_fnmatch
             sample_parser (λ path, path) sample_fs (py "/nowhere") None None
             ∅). reflexivity.
  - destruct (root_path_is_only_checked_for_existence literal_fnmatch
                sample_parser (λ path, path) sample_fs (py "/proj/main.py")
                None None ∅) as (_ & _ & Hfile).
    destruct (Hfile (readable def_f_text) eq_refl) as [Hnode Hruns].
    destruct (Hruns eq_refl) as [pd Hpd].
    exists pd. split; [exact Hpd|]. apply (Hnode pd Hpd).
Defined.

(** * Further properties of the analyser *)

(** ** Trimming and the CSV parameters *)

Lemma lstrip_head s :
  match lstrip s with
  | [] => True
  | c :: _ => isspace c = false
  end.
Proof.
  induction s as [|c s IH]; simpl; [done|].
  destruct (isspace c) eqn:Hc; [done|]. by simpl.
Qed.

Lemma lstrip_fixed s :
  match s with [] => True | c :: _ => isspace c = false end → lstrip s = s.
Proof. destruct s as [|c s]; simpl; [done|]. by intros ->. Qed.

Lemma lstrip_idemp s : lstrip (lstrip s) = lstrip s.
Proof. apply lstrip_fixed, lstrip_head. Qed.

Lemma lstrip_suffix s :
  ∃ blanks, s = blanks ++ lstrip s ∧ Forall (λ c, isspace c = true) blanks.
Proof.
  induction s as [|c s (blanks & Hs & Hb)]; simpl; [by exists []|].
  destruct (isspace c) eqn:Hc.
  - exists (c :: blanks). split; [by rewrite Hs at 1|by constructor].
  - by exists [].
Qed.

Lemma lstrip_nil s : lstrip s = [] ↔ Forall (λ c, isspace c = true) s.
Proof.
  induction s as [|c s IH]; simpl; [done|].
  rewrite Forall_cons. destruct (isspace c); [naive_solver|].
  split; [done|]. by intros [? _].
Qed.

Lemma strip_nil s : strip s = [] ↔ Forall (λ c, isspace c = true) s.
Proof.
  unfold strip, rstrip.
  destruct (lstrip_suffix s) as (blanks & Hs & Hb).
  split.
  - intros H. apply (f_equal (@rev N)) in H. rewrite rev_involutive in H.
    simpl in H. apply lstrip_nil in H.
    pose proof (lstrip_head s) as Hhead.
    destruct (lstrip s) as [|c t] eqn:Hl.
    + by apply lstrip_nil.
    + exfalso. simpl in H, Hhead. apply Forall_app in H as [_ H].
      apply Forall_inv in H. cbv beta in H. congruence.
  - intros H. apply lstrip_nil in H. by rewrite H.
Qed.

Lemma strip_idemp s : strip (strip s) = strip s.
Proof.
  unfold strip, rstrip.
  set (u := lstrip s). set (w := lstrip (rev u)).
  assert (lstrip (rev w) = rev w) as ->.
  { destruct (lstrip_suffix (rev u)) as (blanks & Hu & _). fold w in Hu.
    apply (f_equal (@rev N)) in Hu.
    rewrite rev_involutive, rev_app_distr in Hu.
    pose proof (lstrip_head s) as Hhead. fold u in Hhead.
    apply lstrip_fixed. rewrite Hu in Hhead.
    by destruct (rev w). }
  rewrite rev_involutive. unfold w. by rewrite lstrip_idemp.
Qed.

Lemma lstrip_subseteq s c : c ∈ lstrip s → c ∈ s.
Proof.
  destruct (lstrip_suffix s) as (blanks & Hs & _). intros Hc.
  rewrite Hs. apply elem_of_app. by right.
Qed.

Lemma strip_subseteq s c : c ∈ strip s → c ∈ s.
Proof.
  unfold strip, rstrip. intros Hc.
  apply list_elem_of_In, in_rev, list_elem_of_In, lstrip_subseteq in Hc.
  apply list_elem_of_In, in_rev, list_elem_of_In in Hc.
  by apply lstrip_subseteq.
Qed.

Lemma split_segments_sep_free sep s seg : seg ∈ split sep s → sep ∉ seg.
Proof.
  revert seg. induction s as [|c s IH]; simpl; intros seg Hseg.
  - apply list_elem_of_singleton in Hseg as ->. apply not_elem_of_nil.
  - destruct (N.eqb_spec c sep) as [->|Hne].
    + apply elem_of_cons in Hseg as [->|Hseg]; [apply not_elem_of_nil|eauto].
    + pose proof (split_nonempty sep s) as Hn.
      destruct (split sep s) as [|first segs]; [done|].
      apply elem_of_cons in Hseg as [->|Hseg].
      * apply not_elem_of_cons. split; [done|]. apply IH. by left.
      * apply IH. by right.
Qed.

(** X1: the early return of [__parse_csv_param] changes nothing: for
    every parameter the result is the list of the comma-separated
    segments that are not blank, each trimmed, in their order. *)
Theorem parse_csv_param_segments (param : str) :
  parse_csv_param param
  = strip <$> List.filter (λ item, truthy (strip item)) (split comma param).
Proof.
  unfold parse_csv_param.
  destruct (negb (truthy param) || negb (truthy (strip param))) eqn:Hguard;
    [|done].
  assert (strip param = []) as Hblank.
  { apply orb_true_iff in Hguard as [H|H].
    - by destruct param.
    - by destruct (strip param). }
  assert (comma ∉ param) as Hcomma.
  { intros Hin. apply strip_nil in Hblank.
    rewrite Forall_forall in Hblank. by specialize (Hblank _ Hin). }
  rewrite split_no_sep by done. simpl. by rewrite Hblank.
Qed.

(** X2: every item returned by [__parse_csv_param] is non-empty, carries
    no leading or trailing whitespace and contains no comma. *)
Theorem parse_csv_param_items (param item : str) :
  item ∈ parse_csv_param param →
  item ≠ [] ∧ strip item = item ∧ comma ∉ item.
Proof.
  unfold parse_csv_param.
  destruct (negb (truthy param) || negb (truthy (strip param)));
    [by intros ?%elem_of_nil|].
  intros (seg & -> & Hseg)%list_elem_of_fmap.
  apply list_elem_of_In, filter_In in Hseg as [Hseg Hne].
  apply list_elem_of_In in Hseg. split_and!.
  - by destruct (strip seg).
  - apply strip_idemp.
  - intros Hc%strip_subseteq. by eapply split_segments_sep_free.
Qed.

Lemma parse_csv_param_items_witness :
  py "venv" ∈ parse_csv_param (py " build , ,venv ,") ∧
  py "venv" ≠ [] ∧ strip (py "venv") = py "venv" ∧ comma ∉ py "venv".
Proof.
  assert (py "venv" ∈ parse_csv_param (py " build , ,venv ,")) as Hin
    by decide_it.
  split; [exact Hin|].
  exact (parse_csv_param_items (py " build , ,venv ,") (py "venv") Hin).
Defined.

(** ** Counting definitions *)

Lemma count_functions_and_methods_filter node :
  count_functions_and_methods node
  = length (List.filter is_function_node (walk node)).
Proof.
  unfold count_functions_and_methods.
  enough (∀ l n, fold_left
            (λ count child, if is_function_node child then count + 1 else count)
            l n = n + length (List.filter is_function_node l)) as H by apply H.
  induction l as [|child l IH]; intros n; [simpl; lia|].
  cbn [fold_left List.filter]. rewrite IH.
  destruct (is_function_node child); simpl; lia.
Qed.

(** X3: the count of a tree is one for the root when it is a function
    definition, synchronous or not, plus the counts of its fields: every
    definition is counted, at any depth. *)
Theorem count_functions_and_methods_node (cls : node_class) (fields : list AST) :
  count_functions_and_methods (Node cls fields)
  = (if is_function_node (Node cls fields) then 1 else 0)
    + sum_list (count_functions_and_methods <$> fields).
Proof.
  rewrite count_functions_and_methods_filter. cbn [walk List.filter].
  assert (length (List.filter is_function_node (flat_map walk fields))
          = sum_list (count_functions_and_methods <$> fields)) as Hfields.
  { induction fields as [|field fields IH]; [done|].
    cbn [flat_map fmap list_fmap sum_list sum_list_with].
    rewrite List.filter_app, length_app, IH.
    by rewrite count_functions_and_methods_filter. }
  destruct (is_function_node (Node cls fields)); simpl; lia.
Qed.

(** ** The metrics of one text, continued *)

(** X4: [__calculate_metrics] raises exactly when [ast.parse] raises
    something other than [SyntaxError], and it raises that exception. *)
Theorem calculate_metrics_raises
    (ast_parse : str → result AST) (content : str) (e : exception) :
  calculate_metrics ast_parse content = Raise e ↔
  ast_parse content = Raise e ∧ e ≠ SyntaxError.
Proof.
  destruct (calculate_metrics_cases ast_parse content) as (st & _ & ->).
  destruct (ast_parse content) as [tree|[]]; naive_solver.
Qed.

(** X5: whenever [__calculate_metrics] returns, [loc + cloc] does not
    exceed [tloc], and [tloc] is at least 1, also for the empty text. *)
Theorem metrics_bounds
    (ast_parse : str → result AST) (content : str) (metrics : gmap str nat) :
  calculate_metrics ast_parse content = Ok metrics →
  ∃ loc cloc tloc,
    metrics !! py "loc" = Some loc ∧ metrics !! py "cloc" = Some cloc ∧
    metrics !! py "tloc" = Some tloc ∧
    loc + cloc ≤ tloc ∧ 1 ≤ tloc.
Proof.
  destruct (scan_lines_total scan_start (split nl content)
              scan_start_marker_known) as (st & Hrun & _ & Hsum).
  unfold calculate_metrics. rewrite Hrun. cbn. intros Hm.
  exists (code_lines_count st), (comment_lines_count st),
    (length (split nl content)).
  assert (1 ≤ length (split nl content)) by (rewrite split_length; lia).
  simpl in Hsum.
  destruct (ast_parse content) as [tree|[]]; simplify_eq/=;
    (split_and!; [apply metrics_literal..|lia|done]).
Qed.

Lemma metrics_bounds_witness :
  ∃ loc cloc tloc,
    ({[ py "loc" := 0; py "cloc" := 0; py "nom" := 0; py "tloc" := 1 ]}
       : gmap str nat) !! py "loc" = Some loc ∧
    ({[ py "loc" := 0; py "cloc" := 0; py "nom" := 0; py "tloc" := 1 ]}
       : gmap str nat) !! py "cloc" = Some cloc ∧
    ({[ py "loc" := 0; py "cloc" := 0; py "nom" := 0; py "tloc" := 1 ]}
       : gmap str nat) !! py "tloc" = Some tloc ∧
    loc + cloc ≤ tloc ∧ 1 ≤ tloc.
Proof.
  apply (metrics_bounds (parser_knowing [] (Node OtherNode [])) []).
  evaluate.
Defined.

(** X6: [__analyse_file] always returns a Python [FileNode] of the given
    name; its metrics are the zeroed ones exactly when the file failed,
    so a failed file is never mistaken for an empty one; a file that did
    not fail carries its own time of modification, a failed one the
    current time. *)
Theorem analyse_file_zero_iff_failed
    (ast_parse : str → result AST) (io : file_io) (file_name : str) :
  ∃ lastModified metrics,
    analyse_file ast_parse io file_name
    = FileNode file_name (py "python") lastModified metrics [] [] ∧
    (metrics = zero_metrics ↔ fails_to_analyse ast_parse io) ∧
    (fails_to_analyse ast_parse io → lastModified = now io) ∧
    (metrics ≠ zero_metrics → last_mod_time io = Ok lastModified).
Proof.
  unfold analyse_file, fails_to_analyse.
  destruct (read io) as [content|e]; cbn;
    [|by eexists _, _; split_and!].
  destruct (last_mod_time io) as [t|e]; cbn;
    [|by eexists _, _; split_and!].
  destruct (calculate_metrics ast_parse content) as [metrics|e] eqn:Hm; cbn.
  - exists t, metrics.
    destruct (calculate_metrics_cases ast_parse content) as (st & _ & Hcases).
    rewrite Hcases in Hm.
    assert (metrics !! py "tloc" = Some (length (split nl content))) as Htloc
      by (destruct (ast_parse content) as [tree|[]]; simplify_eq;
          apply metrics_literal).
    assert (metrics ≠ zero_metrics) as Hne.
    { intros ->. vm_compute in Htloc. injection Htloc as Hlen.
      rewrite split_length in Hlen. lia. }
    destruct (ast_parse content) as [tree|[]]; try done; split_and!; try done;
      split; try done; by intros [].
  - destruct (calculate_metrics_cases ast_parse content) as (st & _ & Hcases).
    rewrite Hcases in Hm.
    destruct (ast_parse content) as [tree|[]]; try done;
      by eexists _, _; split_and!.
Qed.

(** ** The line loop, continued *)

(** X7: when the marker of an open block is known, as it always is in a
    run, an iteration returns, and the line is counted by its trimmed
    form alone: inside a block as a comment; outside, not at all when
    blank, as a comment when it starts with ["#"] or a triple-quote
    marker, as code otherwise, whatever follows on the line. *)
Theorem scan_line_verdict_by_form (st : scan_state) (line : str) :
  marker_known st →
  ∃ st', scan_line st line = Ok st' ∧
         verdict st st' = Some (expected_verdict st line).
Proof.
  intros Hst.
  destruct (scan_line_marker_known st line Hst) as (st' & Hstep & _).
  exists st'. split; [done|]. unfold expected_verdict.
  pose proof (uncounted_iff_blank st line st' Hstep) as Hblank.
  unfold scan_line in Hstep.
  destruct (in_multiline_string st) eqn:Hin; cbn [negb] in Hstep.
  - destruct (Hst Hin) as [quote Hq]. rewrite Hq in Hstep.
    destruct (contains quote (strip line)); simplify_eq;
      unfold verdict; simpl; repeat case_bool_decide; try done; lia.
  - destruct (strip line) as [|c s] eqn:Hs.
    { simpl. apply Hblank. done. }
    cbn [truthy negb].
    destruct (startswith (c :: s) triple_double
              || startswith (c :: s) triple_single) eqn:Hmarker.
    + rewrite <- orb_assoc, Hmarker, orb_true_r.
      pose proof (count_own_marker (c :: s) Hmarker) as Hc.
      destruct (count (c :: s) (take 3 (c :: s)) =? 1) eqn:H1;
        [|destruct (2 <=? count (c :: s) (take 3 (c :: s))) eqn:H2].
      * simplify_eq. unfold verdict; simpl.
        repeat case_bool_decide; try done; lia.
      * simplify_eq. unfold verdict; simpl.
        repeat case_bool_decide; try done; lia.
      * apply Nat.eqb_neq in H1. apply Nat.leb_gt in H2. lia.
    + rewrite <- orb_assoc, Hmarker, orb_false_r.
      simplify_eq. unfold scan_plain, verdict. rewrite Hin.
      destruct (startswith (c :: s) (py "#")); simpl;
        repeat case_bool_decide; try done; lia.
Qed.

Lemma scan_line_verdict_by_form_witness :
  ∃ st', scan_line scan_start code_with_trailing_comment = Ok st' ∧
         verdict scan_start st' = Some CodeLine.
Proof.
  apply (scan_line_verdict_by_form scan_start code_with_trailing_comment).
  exact scan_start_marker_known.
Defined.

(** X8: inside a block opened with marker [quote], lines that do not
    contain the marker are all counted as comments and leave the block
    open, code lines included; the first line that contains the marker
    is counted as a comment too and closes the block. *)
Theorem block_runs_to_its_closing_line
    (st : scan_state) (quote : str) (body : list str) (closing : str) :
  in_multiline_string st = true →
  multiline_quote st = Some quote →
  Forall (λ line, contains quote (strip line) = false) body →
  contains quote (strip closing) = true →
  scan_lines st body
  = Ok {| in_multiline_string := true;
          multiline_quote := Some quote;
          comment_lines_count := comment_lines_count st + length body;
          code_lines_count := code_lines_count st |} ∧
  scan_lines st (body ++ [closing])
  = Ok {| in_multiline_string := false;
          multiline_quote := None;
          comment_lines_count := comment_lines_count st + length body + 1;
          code_lines_count := code_lines_count st |}.
Proof.
  intros Hin Hq Hbody Hclosing. revert st Hin Hq.
  induction Hbody as [|line body Hline _ IH]; intros st Hin Hq.
  - split.
    + destruct st; simpl in *; subst. do 2 f_equal. lia.
    + cbn [app scan_lines]. unfold scan_line. rewrite Hin, Hq. cbn [negb].
      rewrite Hclosing. cbn. do 2 f_equal. lia.
  - cbn [app scan_lines length]. unfold scan_line.
    rewrite Hin, Hq. cbn [negb]. rewrite Hline. cbn.
    match goal with
    | |- scan_lines ?st1 _ = _ ∧ _ =>
        destruct (IH st1) as [IH1 IH2]; [done|done|]
    end.
    rewrite IH1, IH2. cbn [comment_lines_count code_lines_count].
    split; do 2 f_equal; lia.
Qed.

Lemma block_runs_to_its_closing_line_witness :
  scan_lines
    {| in_multiline_string := true; multiline_quote := Some triple_double;
       comment_lines_count := 1; code_lines_count := 0 |}
    ([py "x = 1"; []] ++ [py "end " ++ triple_double])
  = Ok {| in_multiline_string := false; multiline_quote := None;
          comment_lines_count := 1 + 2 + 1; code_lines_count := 0 |}.
Proof.
  apply (block_runs_to_its_closing_line
           {| in_multiline_string := true;
              multiline_quote := Some triple_double;
              comment_lines_count := 1; code_lines_count := 0 |}
           triple_double [py "x = 1"; []] (py "end " ++ triple_double));
    [reflexivity|reflexivity|decide_it|reflexivity].
Defined.

(** ** The hierarchy builder, continued *)

Section builder_properties.

Variable fnmatch : str → str → bool.
Variable ast_parse : str → result AST.

Variables (root_path : str) (exclude_dirs exclude_files : list str).

Local Abbreviation build current_path node :=
  (build_hierarchy fnmatch ast_parse current_path root_path
     exclude_dirs exclude_files node).

Local Abbreviation items current_path entry :=
  (item_nodes fnmatch ast_parse root_path exclude_dirs exclude_files
     current_path entry).

Lemma elem_of_children current_path names entry child :
  child ∈ node_children (build current_path (Directory (Ok names) entry)) ↔
  ∃ item_name, item_name ∈ names ∧ child ∈ items current_path entry item_name.
Proof.
  rewrite build_hierarchy_directory. cbn [node_children].
  rewrite list_elem_of_In, in_flat_map.
  split; intros (item_name & Hin & Hchild); exists item_name.
  - apply list_elem_of_In in Hin. rewrite sorted_Permutation in Hin.
    split; [done|]. by apply list_elem_of_In.
  - split; [|by apply list_elem_of_In].
    apply list_elem_of_In. by rewrite sorted_Permutation.
Qed.

(** X9: the children of a directory are exactly the nodes built for its
    listed entries that are not hidden and are either a directory that
    is not excluded and whose own node has children, or a regular file
    that is not excluded and whose name ends in [".py"]. *)
Theorem children_are_the_kept_entries
    (current_path : str) (names : list str) (entry : str → fsnode)
    (child : HierarchyNode) :
  child ∈ node_children (build current_path (Directory (Ok names) entry)) ↔
  ∃ item_name,
    item_name ∈ names ∧
    child = build (join current_path item_name) (entry item_name) ∧
    startswith item_name (py ".") = false ∧
    (isdir (entry item_name) = true ∧
       should_exclude_directory item_name exclude_dirs = false ∧
       is_empty_folder child = false
     ∨ isfile (entry item_name) = true ∧
       should_exclude_file fnmatch (join current_path item_name) exclude_files
       = false ∧
       endswith item_name (py ".py") = true).
Proof.
  rewrite elem_of_children.
  split; intros (item_name & Hin & Hchild); exists item_name;
    (split; [done|]); by apply elem_of_item_nodes.
Qed.

(** X10: when the listed names contain no ["/"], every child carries the
    name of a listed entry that does not start with ["."]; a file child
    has a name ending in [".py"], and a folder child a name that is not
    on the list of excluded directories. *)
Theorem children_names_are_visible_entries
    (current_path : str) (names : list str) (entry : str → fsnode)
    (child : HierarchyNode) :
  Forall (λ item_name, slash ∉ item_name) names →
  child ∈ node_children (build current_path (Directory (Ok names) entry)) →
  node_name child ∈ names ∧
  startswith (node_name child) (py ".") = false ∧
  (if is_file_node child
   then endswith (node_name child) (py ".py") = true
   else node_name child ∉ exclude_dirs).
Proof.
  intros Hnames (item_name & Hin & Hchild)%elem_of_children.
  apply elem_of_item_nodes in Hchild as (-> & Hvisible & Hkind).
  rewrite build_hierarchy_name, build_hierarchy_isfile, basename_join
    by (by eapply Forall_forall in Hnames).
  split_and!; [done..|].
  destruct Hkind as [(Hdir & Hexcl & _)|(Hfile & _ & Hpy)].
  - destruct (entry item_name); try done. cbn [isfile].
    unfold should_exclude_directory in Hexcl.
    destruct exclude_dirs as [|d ds]; [apply not_elem_of_nil|].
    by apply bool_decide_eq_false in Hexcl.
  - by rewrite Hfile.
Qed.

(** X11: every child of a built node holds at least one [FileNode]
    below it: pruning leaves no branch without a file, at any depth. *)
Theorem every_child_holds_a_file (node : fsnode) (current_path : str) :
  Forall (λ child, file_metrics child ≠ [])
         (node_children (build current_path node)).
Proof.
  revert current_path.
  induction node as [io|[names|e] entry IH| |]; intros current_path;
    try by constructor.
  - cbn [build_hierarchy].
    destruct (analyse_file_node ast_parse io (basename current_path))
      as (? & ? & -> & _). constructor.
  - apply Forall_forall. intros child Hchild.
    apply elem_of_children in Hchild as (item_name & _ & Hchild).
    apply elem_of_item_nodes in Hchild
      as (-> & _ & [(_ & _ & Hne)|(Hfile & _)]).
    + specialize (IH item_name (join current_path item_name)).
      destruct (build (join current_path item_name) (entry item_name))
        as [name [|first rest]|]; try done.
      cbn [node_children] in IH. apply Forall_cons in IH as [Hfirst _].
      cbn [file_metrics flat_map]. by destruct (file_metrics first).
    + destruct (entry item_name) as [io| | |]; try done.
      cbn [build_hierarchy].
      by destruct (analyse_file_node ast_parse io
                     (basename (join current_path item_name)))
        as (? & ? & -> & _).
Qed.

(** X12: the [root_path] argument of [__build_hierarchy] has no effect on
    the node that is built. *)
Theorem root_path_is_unused
    (node : fsnode) (current_path other_root : str) :
  build current_path node
  = build_hierarchy fnmatch ast_parse current_path other_root
      exclude_dirs exclude_files node.
Proof.
  revert current_path.
  induction node as [io|[names|e] entry IH| |]; intros current_path;
    try done.
  rewrite !build_hierarchy_directory. f_equal.
  apply flat_map_ext. intros item_name.
  unfold item_nodes. by rewrite !IH.
Qed.

(** X15: every [FileNode] of a built hierarchy is tagged ["python"] and
    has empty [uses] and [usedBy] lists. *)
Theorem file_nodes_are_python_without_references
    (node : fsnode) (current_path : str) :
  Forall (λ fields, fields = (py "python", [], []))
         (file_fields (build current_path node)).
Proof.
  revert current_path.
  induction node as [io|[names|e] entry IH| |]; intros current_path;
    try by constructor.
  - cbn [build_hierarchy].
    destruct (analyse_file_node ast_parse io (basename current_path))
      as (? & ? & -> & _).
    by repeat constructor.
  - rewrite build_hierarchy_directory. cbn [file_fields].
    apply Forall_flat_map, Forall_flat_map, Forall_forall.
    intros item_name _.
    destruct (item_nodes_cases fnmatch ast_parse root_path exclude_dirs
                exclude_files current_path entry item_name) as [-> | ->];
      repeat constructor. apply IH.
Qed.

End builder_properties.

Lemma children_names_are_visible_entries_witness :
  node_name (build_hierarchy literal_fnmatch sample_parser (py "/proj/pkg")
               (py "/proj") [py "cache"] [] (sample_entry (py "pkg")))
  ∈ sample_entries ∧
  startswith
    (node_name (build_hierarchy literal_fnmatch sample_parser (py "/proj/pkg")
                  (py "/proj") [py "cache"] [] (sample_entry (py "pkg"))))
    (py ".") = false ∧
  py "pkg" ∉ [py "cache"].
Proof.
  apply (children_names_are_visible_entries literal_fnmatch sample_parser
           (py "/proj") [py "cache"] [] (py "/proj") sample_entries
           sample_entry
           (build_hierarchy literal_fnmatch sample_parser (py "/proj/pkg")
              (py "/proj") [py "cache"] [] (sample_entry (py "pkg"))));
    [decide_it|].
  vm_compute. do 3 apply list_elem_of_further. apply list_elem_of_here.
Defined.

(** ** The orchestrator, continued *)

Section orchestrator_properties.

Variable fnmatch : str → str → bool.
Variable ast_parse : str → result AST.
Variable abspath : str → str.

Variables (fs : str → fsnode) (input_dir : str).
Variables (title description : option str) (kwargs : gmap str str).

Local Abbreviation run :=
  (analyse fnmatch ast_parse abspath fs input_dir title description kwargs).

Local Abbreviation cases :=
  (analyse_cases fnmatch ast_parse abspath fs input_dir title description
     kwargs).


(** X16: [analyse] either returns a report or raises a [ValueError]; no
    failure met while reading files or listing directories leaves it. *)
Theorem analyse_raises_only_value_errors :
  (∃ pd,
     analyse fnmatch ast_parse abspath fs input_dir title description kwargs
     = Ok pd) ∨
  (∃ why,
     analyse fnmatch ast_parse abspath fs input_dir title description kwargs
     = Raise (ValueError why)).
Proof.
  destruct cases as [[_ H]|[(_ & _ & _ & H)|(_ & _ & pd & H & _)]];
    rewrite H; eauto.
Qed.

End orchestrator_properties.

(** X14: when the path given to [analyse] ends in ["/"], the root node of
    the report has the empty name, since the name is the base name of
    the path as it was given. *)
Theorem trailing_slash_gives_unnamed_root
    (fnmatch : str → str → bool) (ast_parse : str → result AST)
    (abspath : str → str) (fs : str → fsnode) (path : str)
    (title description : option str) (kwargs : gmap str str)
    (pd : ProjectData) :
  analyse fnmatch ast_parse abspath fs (path ++ [slash]) title description
    kwargs = Ok pd →
  node_name (hierarchy pd) = [].
Proof.
  intros Hrun.
  destruct (analyse_cases fnmatch ast_parse abspath fs (path ++ [slash])
              title description kwargs)
    as [[_ H]|[(_ & _ & _ & H)|(_ & _ & pd0 & H & Hh & _)]];
    try congruence.
  assert (pd0 = pd) as -> by congruence.
  rewrite Hh, build_hierarchy_name. unfold basename.
  by rewrite split_app_sep, last_app.
Qed.


Lemma trailing_slash_gives_unnamed_root_witness :
  ∃ pd,
    analyse literal_fnmatch sample_parser (λ _, py "/proj")
      (λ _, sample_project) (py "/proj" ++ [slash]) None None ∅ = Ok pd ∧
    node_name (hierarchy pd) = [] ∧
    title pd = py "proj".
Proof.
  eexists. split; [evaluate|].
  split; [|evaluate].
  match goal with
  | |- node_name (hierarchy ?pd) = [] =>
      apply (trailing_slash_gives_unnamed_root literal_fnmatch sample_parser
               (λ _, py "/proj") (λ _, sample_project) (py "/proj") None None
               ∅ pd)
  end.
  evaluate.
Defined.

Lemma dict_get_Some {V} (d : list (str * V)) key v :
  dict_get d key = Some v → (key, v) ∈ d.
Proof.
  induction d as [|[k v'] d IH]; simpl; [done|].
  case_bool_decide; intros; simplify_eq; [left|right; auto].
Qed.

(** X17: a report never comes with an empty list of metric definitions,
    and every definition it lists is an entry of the catalog. *)
Theorem report_lists_catalog_metrics
    (fnmatch : str → str → bool) (ast_parse : str → result AST)
    (abspath : str → str) (fs : str → fsnode) (input_dir : str)
    (title description : option str) (kwargs : gmap str str)
    (pd : ProjectData) :
  analyse fnmatch ast_parse abspath fs input_dir title description kwargs
  = Ok pd →
  metrics_computed pd ≠ [] ∧
  Forall (λ def, (metric_id def, def) ∈ all_metrics) (metrics_computed pd).
Proof.
  intros Hrun.
  destruct (analyse_cases fnmatch ast_parse abspath fs input_dir title
              description kwargs)
    as [[_ H]|[(_ & _ & _ & H)|(_ & Hok & pd0 & H & _ & Hm)]];
    try congruence.
  assert (pd0 = pd) as -> by congruence.
  rewrite Hm. destruct (requested_ids kwargs) as [|key keys] eqn:Hreq.
  - split; [done|]. unfold all_metrics. cbn [fmap list_fmap snd].
    repeat constructor; cbn [metric_id]; decide_it.
  - split; [by destruct Hok|].
    apply Forall_forall. intros def (key' & _ & Hget)%list_elem_of_omap.
    rewrite (all_metrics_ids key' def Hget). by apply dict_get_Some.
Qed.

Lemma report_lists_catalog_metrics_witness :
  ∃ pd,
    sample_run (py "/proj") {[ py "metrics" := py "tloc,lines,tloc" ]}
    = Ok pd ∧
    metrics_computed pd ≠ [] ∧
    Forall (λ def, (metric_id def, def) ∈ all_metrics) (metrics_computed pd).
Proof.
  eexists. split; [evaluate|].
  match goal with
  | |- metrics_computed ?pd ≠ [] ∧ _ =>
      apply (report_lists_catalog_metrics literal_fnmatch sample_parser
               (λ path, path) sample_fs (py "/proj") None None
               {[ py "metrics" := py "tloc,lines,tloc" ]} pd)
  end.
  evaluate.
Defined.
